(** * Website signal scanners: calendar detector and phone-number sniper

    A shallow embedding of [scan_calendars.py] and
    [utils/scan_phone_numbers.py], with the properties of their URL
    normaliser, page fetchers, per-page signal extractors, site scanners
    and scan coordinators.

    Conventions of the embedding.
    - Python [str] values are [string]s; a character is a code point
      below 256, and [lower], [isspace] and the regular-expression
      classes follow Python on that range.
    - Python [int]s are [Z]; slices take [Z] bounds and clamp as Python's do.
    - Code that can raise runs in the monad [Py]; [try_except] is
      [try: ... except Exception: ...].
    - The third-party collaborators (aiohttp, BeautifulSoup, urllib's
      [urljoin] and the path of [urlparse], the phonenumbers recogniser)
      are variables of the sections that use them, taken as total
      functions; the scheme detection of [urlparse], which decides what
      [normalize_base_url] returns, is transcribed from CPython's
      [urllib.parse.urlsplit].  The [ValueError] urllib raises on a
      malformed bracketed host is not part of these functions; the
      coordinators are modelled for tasks that may raise. *)

From Stdlib Require Import String Ascii List ZArith Lia Bool Permutation.
From stdpp Require Import base gmap strings.
Import ListNotations.

Local Open Scope string_scope.
Local Open Scope Z_scope.

(** ** Python strings *)

Module PyStr.

Definition code (c : ascii) : Z := Z.of_nat (nat_of_ascii c).

Definition in_range (lo hi : Z) (c : ascii) : bool :=
  (lo <=? code c) && (code c <=? hi).

(** [str.isspace] on one character, and the class [\s] of [re]. *)
Definition isspace (c : ascii) : bool :=
  in_range 9 13 c || in_range 28 32 c || (code c =? 133) || (code c =? 160).

Definition is_upper_az (c : ascii) : bool := in_range 65 90 c.
Definition is_lower_az (c : ascii) : bool := in_range 97 122 c.
Definition is_digit (c : ascii) : bool := in_range 48 57 c.

(** [str.lower] on one character: A-Z, and the Latin-1 capitals. *)
Definition lower_char (c : ascii) : ascii :=
  if is_upper_az c || (in_range 192 222 c && negb (code c =? 215))
  then ascii_of_nat (nat_of_ascii c + 32)
  else c.

Fixpoint lower (s : string) : string :=
  match s with
  | EmptyString => EmptyString
  | String c s' => String (lower_char c) (lower s')
  end.

Definition len (s : string) : Z := Z.of_nat (String.length s).

Fixpoint startswith (p s : string) : bool :=
  match p, s with
  | EmptyString, _ => true
  | String a p', String b s' => Ascii.eqb a b && startswith p' s'
  | String _ _, EmptyString => false
  end.

(** [needle in hay]. *)
Fixpoint contains (needle hay : string) : bool :=
  startswith needle hay
  || match hay with
     | EmptyString => false
     | String _ hay' => contains needle hay'
     end.

Fixpoint has_char (c : ascii) (s : string) : bool :=
  match s with
  | EmptyString => false
  | String b s' => Ascii.eqb c b || has_char c s'
  end.

Fixpoint drop (n : nat) (s : string) : string :=
  match n, s with
  | O, _ => s
  | S n', String _ s' => drop n' s'
  | S _, EmptyString => EmptyString
  end.

Fixpoint take (n : nat) (s : string) : string :=
  match n, s with
  | S n', String c s' => String c (take n' s')
  | _, _ => EmptyString
  end.

(** A slice bound as Python normalises it: negative bounds count from the
    end, and every bound is clamped to [0, len]. *)
Definition clamp (n : Z) (i : Z) : Z :=
  if i <? 0 then Z.max 0 (i + n) else Z.min i n.

(** [s[lo:hi]], an omitted bound being [None]. *)
Definition slice (s : string) (lo hi : option Z) : string :=
  let n := len s in
  let l := match lo with Some i => clamp n i | None => 0 end in
  let h := match hi with Some i => clamp n i | None => n end in
  take (Z.to_nat (h - l)) (drop (Z.to_nat l) s).

Fixpoint lstrip_by (p : ascii -> bool) (s : string) : string :=
  match s with
  | EmptyString => EmptyString
  | String c s' => if p c then lstrip_by p s' else s
  end.

Fixpoint rstrip_by (p : ascii -> bool) (s : string) : string :=
  match s with
  | EmptyString => EmptyString
  | String c s' =>
      match rstrip_by p s' with
      | EmptyString => if p c then EmptyString else String c EmptyString
      | r => String c r
      end
  end.

(** [s.strip()]. *)
Definition strip (s : string) : string := rstrip_by isspace (lstrip_by isspace s).

(** [s.lstrip(chars)] and [s.rstrip(chars)]. *)
Definition lstrip_chars (chars s : string) : string :=
  lstrip_by (fun c => has_char c chars) s.
Definition rstrip_chars (chars s : string) : string :=
  rstrip_by (fun c => has_char c chars) s.

Fixpoint remove_by (p : ascii -> bool) (s : string) : string :=
  match s with
  | EmptyString => EmptyString
  | String c s' => if p c then remove_by p s' else String c (remove_by p s')
  end.

(** [s.find(c)] for a one-character [c]: [None] stands for -1. *)
Fixpoint find_char (c : ascii) (s : string) : option nat :=
  match s with
  | EmptyString => None
  | String b s' =>
      if Ascii.eqb c b then Some O
      else match find_char c s' with Some i => Some (S i) | None => None end
  end.

Fixpoint forallb_str (p : ascii -> bool) (s : string) : bool :=
  match s with
  | EmptyString => true
  | String c s' => p c && forallb_str p s'
  end.

(** [s.split()]: the maximal runs of non-whitespace characters.  [cur] is
    the run being read, reversed. *)
Fixpoint rev_string (acc s : string) : string :=
  match s with
  | EmptyString => acc
  | String c s' => rev_string (String c acc) s'
  end.

Fixpoint split_ws_aux (cur : string) (s : string) : list string :=
  match s with
  | EmptyString =>
      match cur with EmptyString => [] | _ => [rev_string EmptyString cur] end
  | String c s' =>
      if isspace c then
        match cur with
        | EmptyString => split_ws_aux EmptyString s'
        | _ => rev_string EmptyString cur :: split_ws_aux EmptyString s'
        end
      else split_ws_aux (String c cur) s'
  end.

Definition split_ws (s : string) : list string := split_ws_aux EmptyString s.

(** [sep.join(parts)]. *)
Fixpoint join (sep : string) (parts : list string) : string :=
  match parts with
  | [] => EmptyString
  | [p] => p
  | p :: rest => p ++ sep ++ join sep rest
  end.

(** Truthiness of a [str]: non-empty. *)
Definition truthy (s : string) : bool :=
  match s with EmptyString => false | _ => true end.

End PyStr.

(** ** Regular expressions

    The fragment of Python's [re] the two scanners use, with the
    backtracking semantics of [re]: alternatives are tried left to right,
    [?] and [+] are greedy, and [search] returns the match of the leftmost
    start position.  A pattern is kept with its source text, which the
    calendar scanner prints in the evidence detail. *)

Module Re.

Inductive re : Type :=
| Cls (p : ascii -> bool)
| Lit (s : string)
| Cat (r1 r2 : re)
| Alt (r1 r2 : re)
| Opt (r : re)
| Plus (p : ascii -> bool).

(** [lit_rest p s]: what is left of [s] after the literal [p]. *)
Fixpoint lit_rest (p s : string) : option string :=
  match p, s with
  | EmptyString, _ => Some s
  | String a p', String b s' => if Ascii.eqb a b then lit_rest p' s' else None
  | String _ _, EmptyString => None
  end.

(** Greedy [class+]: the longest run first, then shorter ones. *)
Fixpoint plus_cls {A} (p : ascii -> bool) (s : string)
    (k : string -> option A) : option A :=
  match s with
  | String c s' =>
      if p c then
        match plus_cls p s' k with
        | Some x => Some x
        | None => k s'
        end
      else None
  | EmptyString => None
  end.

(** [run r s k]: match [r] at the head of [s] and hand the rest to [k];
    [None] makes the matcher backtrack. *)
Fixpoint run {A} (r : re) (s : string) (k : string -> option A) : option A :=
  match r with
  | Cls p =>
      match s with
      | String c s' => if p c then k s' else None
      | EmptyString => None
      end
  | Lit l => match lit_rest l s with Some s' => k s' | None => None end
  | Cat r1 r2 => run r1 s (fun s' => run r2 s' k)
  | Alt r1 r2 =>
      match run r1 s k with
      | Some x => Some x
      | None => run r2 s k
      end
  | Opt r1 =>
      match run r1 s k with
      | Some x => Some x
      | None => k s
      end
  | Plus p => plus_cls p s k
  end.

(** The text matched at the head of [s], if any. *)
Definition match_here (r : re) (s : string) : option string :=
  match run r s (fun rest => Some rest) with
  | Some rest => Some (PyStr.take (String.length s - String.length rest) s)
  | None => None
  end.

(** [re.search(r, s)]: the match object's [group(0)], or [None]. *)
Fixpoint search (r : re) (s : string) : option string :=
  match match_here r s with
  | Some m => Some m
  | None =>
      match s with
      | EmptyString => None
      | String _ s' => search r s'
      end
  end.

Definition found (r : re) (s : string) : bool :=
  match search r s with Some _ => true | None => false end.

Definition alts (ws : list string) : re :=
  match ws with
  | [] => Lit EmptyString
  | w :: rest => fold_left (fun acc x => Alt acc (Lit x)) rest (Lit w)
  end.

End Re.

(** ** Exceptions *)

(** The classes of [Exception] the scanners can meet. *)
Inductive exn : Type :=
| TimeoutError
| ClientConnectorError
| ClientError
| ValueError
| OtherException (what : string).

Inductive Py (A : Type) : Type :=
| Ret (a : A)
| Raise (e : exn).
Arguments Ret {A} a.
Arguments Raise {A} e.

Definition bind {A B} (m : Py A) (f : A -> Py B) : Py B :=
  match m with
  | Ret a => f a
  | Raise e => Raise e
  end.

(** [try: body / except Exception: handler]. *)
Definition try_except {A} (body : Py A) (handler : exn -> Py A) : Py A :=
  match body with
  | Ret a => Ret a
  | Raise e => handler e
  end.

#[export] Instance Py_ret : MRet Py := fun _ a => Ret a.
#[export] Instance Py_bind : MBind Py := fun _ _ f m => bind m f.

Definition raises {A} (m : Py A) : bool :=
  match m with Ret _ => false | Raise _ => true end.

(** ** URL normaliser ([scan_calendars.py]) *)

(** [scheme_chars] of [urllib.parse]. *)
Definition scheme_char (c : ascii) : bool :=
  PyStr.is_lower_az c || PyStr.is_upper_az c || PyStr.is_digit c
  || Ascii.eqb c "+" || Ascii.eqb c "-" || Ascii.eqb c ".".

(** What [urlsplit] does to its argument before it looks for a scheme:
    leading C0 controls and spaces are stripped, and tab, CR and LF are
    removed everywhere. *)
Definition urlsplit_clean (url : string) : string :=
  PyStr.remove_by
    (fun c => (PyStr.code c =? 9) || (PyStr.code c =? 13) || (PyStr.code c =? 10))
    (PyStr.lstrip_by (fun c => PyStr.code c <=? 32) url).

(** [urlparse(url).scheme]: the text before the first colon, lowered, when
    the colon is not the first character, the first character is an ASCII
    letter and everything before the colon is a scheme character. *)
Definition urlparse_scheme (url : string) : string :=
  let url := urlsplit_clean url in
  match PyStr.find_char ":" url with
  | Some i =>
      match url with
      | String c0 _ =>
          if (0 <? i)%nat
             && (PyStr.is_lower_az c0 || PyStr.is_upper_az c0)
             && PyStr.forallb_str scheme_char (PyStr.take i url)
          then PyStr.lower (PyStr.take i url)
          else EmptyString
      | EmptyString => EmptyString
      end
  | None => EmptyString
  end.

(** [normalize_base_url], on the inputs [urlparse] accepts (it raises
    [ValueError] on a malformed bracketed host). *)
Definition normalize_base_url (raw : string) : string :=
  let raw := PyStr.strip raw in
  if negb (PyStr.truthy raw) then ""
  else if negb (PyStr.truthy (urlparse_scheme raw)) then "https://" ++ raw
  else raw.

(** ** Page fetchers *)

(** What the scanners see of an aiohttp response: its status, and the
    outcome of awaiting [resp.text(errors="ignore")]. *)
Record Response : Type := {
  status : Z;
  text : Py string
}.

Definition Headers : Type := list (string * string).

Section Fetch.

(** [session.get(url, timeout=10, headers=...)] entered as a context
    manager: a response, or the exception of the transport (time-out, DNS
    failure, refused connection, ...). *)
Variable session_get : string -> Headers -> Py Response.

(** [fetch] of [scan_calendars.py]. *)
Definition fetch (url : string) : Py (string * option string) :=
  try_except
    (resp ← session_get url [];
     if status resp >=? 400 then Ret (url, None)
     else
       text ← text resp;
       Ret (url, Some text))
    (fun _ => Ret (url, None)).

(** [fetch_html] of [scan_phone_numbers.py].  The body of the [try]
    yields [Some] of what it returns, or [None] when it falls through to
    the final [return ""]. *)
Definition fetch_html (url : string) : Py string :=
  returned ←
    try_except
      (response ← session_get url [("User-Agent", "Mozilla/5.0")];
       if status response =? 200 then
         text ← text response;
         Ret (Some text)
       else Ret None)
      (fun _ => Ret None);
  match returned with
  | Some text => Ret text
  | None => Ret ""
  end.

End Fetch.

(** ** Calendar mode: one page *)

Definition CANDIDATE_PATHS : list string :=
  [ ""; "/contact"; "/contact-us"; "/contactus"; "/owners"; "/owner";
    "/owner-services"; "/property-management"; "/property-management/";
    "/management"; "/schedule"; "/book"; "/book-now"; "/demo"; "/consult";
    "/consultation" ].

Definition SCHEDULER_HOST_PATTERNS : list string :=
  [ "calendly.com"; "hubspot.com/meetings"; "acuityscheduling.com";
    "acuityscheduling.com"; "youcanbook.me"; "oncehub.com"; "tidycal.com";
    "vcita.com"; "squareup.com/appointments"; "zoho.com/bookings";
    "microsoft.com/booking"; "outlook.office365.com/book";
    "meetings.hubspot.com" ].

Definition SCHEDULER_PATH_KEYWORDS : list string :=
  [ "schedule"; "book"; "booking"; "appointment"; "appointments"; "consult";
    "consultation"; "demo"; "strategy-call" ].

(** [TEXT_PATTERNS]: each pattern with its source text. *)
Definition TEXT_PATTERNS : list (string * Re.re) :=
  let opt_a := Re.Opt (Re.Lit "a ") in
  [ ("schedule (a )?(call|meeting|demo)",
     Re.Cat (Re.Lit "schedule ") (Re.Cat opt_a (Re.alts ["call"; "meeting"; "demo"])));
    ("book (a )?(call|meeting|demo)",
     Re.Cat (Re.Lit "book ") (Re.Cat opt_a (Re.alts ["call"; "meeting"; "demo"])));
    ("schedule your (call|demo|consultation)",
     Re.Cat (Re.Lit "schedule your ") (Re.alts ["call"; "demo"; "consultation"]));
    ("book your (call|demo|consultation)",
     Re.Cat (Re.Lit "book your ") (Re.alts ["call"; "demo"; "consultation"]));
    ("schedule an? (appointment|intro)",
     Re.Cat (Re.Lit "schedule a")
       (Re.Cat (Re.Opt (Re.Lit "n")) (Re.Cat (Re.Lit " ") (Re.alts ["appointment"; "intro"]))));
    ("owner (intro|consultation|call)",
     Re.Cat (Re.Lit "owner ") (Re.alts ["intro"; "consultation"; "call"])) ].

(** A tag that [soup.find_all(["a", "iframe", "script"])] returns, as far
    as [analyze_page] reads it: [tag.get("href")], [tag.get("src")] and
    [tag.get_text()]. *)
Record Tag : Type := {
  tag_href : option string;
  tag_src : option string;
  tag_text : string
}.

(** The parsed document: the tags in document order, and
    [soup.get_text(separator=" ", strip=True)]. *)
Record Soup : Type := {
  soup_tags : list Tag;
  soup_text : string
}.

(** The tuple [analyze_page] returns, and the accumulator of its closure
    [update]. *)
Record Evidence : Type := {
  score : Z;
  evidence_url : option string;
  evidence_type : option string;
  evidence_detail : option string
}.

Definition no_evidence : Evidence :=
  {| score := 0; evidence_url := None; evidence_type := None;
     evidence_detail := None |}.

Definition update (best : Evidence) (sc : Z) (url typ detail : string) : Evidence :=
  if sc >? score best then
    {| score := sc; evidence_url := Some url; evidence_type := Some typ;
       evidence_detail := Some detail |}
  else best.

(** [tag.get("href") or tag.get("src")]. *)
Definition href_or_src (tag : Tag) : option string :=
  match tag_href tag with
  | Some h => if PyStr.truthy h then Some h else tag_src tag
  | None => tag_src tag
  end.

Section AnalyzePage.

(** [urllib.parse.urljoin], and [urlparse(url).path]. *)
Variable urljoin : string -> string -> string.
Variable urlparse_path : string -> string.
(** [BeautifulSoup(html, "html.parser")]. *)
Variable BeautifulSoup : string -> Soup.

Definition host_step (full_url href_lower : string) (best : Evidence)
    (pattern : string) : Evidence :=
  if PyStr.contains pattern href_lower then
    update best 100 full_url "external_scheduler"
      ("matched scheduler host pattern: " ++ pattern)
  else best.

Definition path_step (full_url path : string) (best : Evidence)
    (kw : string) : Evidence :=
  if PyStr.contains kw path then
    update best (Z.max (score best) 60) full_url "internal_link"
      ("matched path keyword: " ++ kw)
  else best.

Definition anchor_step (full_url : string) (tag : Tag) (best : Evidence) : Evidence :=
  let anchor_text := PyStr.lower (PyStr.strip (tag_text tag)) in
  if PyStr.contains "schedule" anchor_text || PyStr.contains "book" anchor_text then
    update best (Z.max (score best) 50) full_url "text"
      ("anchor text: " ++ PyStr.slice anchor_text None (Some 80))
  else best.

(** The body of the loop over the tags. *)
Definition tag_step (page_url : string) (best : Evidence) (tag : Tag) : Evidence :=
  match href_or_src tag with
  | None => best
  | Some href =>
      if negb (PyStr.truthy href) then best
      else
        let full_url := urljoin page_url href in
        let href_lower := PyStr.lower full_url in
        let best := fold_left (host_step full_url href_lower)
                      SCHEDULER_HOST_PATTERNS best in
        let path := PyStr.lower (urlparse_path full_url) in
        let best := fold_left (path_step full_url path)
                      SCHEDULER_PATH_KEYWORDS best in
        anchor_step full_url tag best
  end.

Definition text_step (page_url full_text_lower : string) (best : Evidence)
    (pattern : string * Re.re) : Evidence :=
  if Re.found (snd pattern) full_text_lower then
    update best (Z.max (score best) 70) page_url "text"
      ("matched text pattern: " ++ fst pattern)
  else best.

Definition analyze_soup (soup : Soup) (page_url : string) : Evidence :=
  let best := fold_left (tag_step page_url) (soup_tags soup) no_evidence in
  let full_text_lower := PyStr.lower (soup_text soup) in
  fold_left (text_step page_url full_text_lower) TEXT_PATTERNS best.

Definition analyze_page (html page_url : string) : Evidence :=
  analyze_soup (BeautifulSoup html) page_url.

End AnalyzePage.

(** ** Calendar mode: one site *)

(** A row of the input CSV, as [csv.DictReader] yields it. *)
Definition Company : Type := gmap string string.

(** [d.get(key, default)]. *)
Definition dict_get (d : Company) (key default : string) : string :=
  match d !! key with
  | Some v => v
  | None => default
  end.

Record ScanResult : Type := {
  company_name : string;
  website : string;
  calendar_confidence : Z;
  sr_evidence_url : option string;
  sr_evidence_type : option string;
  sr_evidence_detail : option string
}.

Section ScanSite.

Variable session_get : string -> Headers -> Py Response.
Variable urljoin : string -> string -> string.
Variable urlparse_path : string -> string.
Variable BeautifulSoup : string -> Soup.

(** [urljoin(base_url.rstrip("/") + "/", path.lstrip("/"))]. *)
Definition candidate_url (base_url path : string) : string :=
  urljoin (PyStr.rstrip_chars "/" base_url ++ "/") (PyStr.lstrip_chars "/" path).

(** The comparison at the end of the loop body. *)
Definition keep_best (best page : Evidence) : Evidence :=
  if score page >? score best then page else best.

(** The loop over the candidate paths.  [best] is the running best
    evidence; [requested] lists the URLs fetched so far, oldest first, and
    is returned with the result: it is the trace the scan leaves on the
    network. *)
Fixpoint scan_paths (base_url : string) (paths : list string)
    (best : Evidence) (requested : list string)
    : Py (Evidence * list string) :=
  match paths with
  | [] => Ret (best, requested)
  | path :: rest =>
      let url := candidate_url base_url path in
      '(url, html) ← fetch session_get url;
      let requested := (requested ++ [url])%list in
      match html with
      | None => scan_paths base_url rest best requested
      | Some html =>
          if negb (PyStr.truthy html) then
            scan_paths base_url rest best requested
          else
            let page := analyze_page urljoin urlparse_path BeautifulSoup html url in
            let best := keep_best best page in
            if score best >=? 95 then Ret (best, requested)
            else scan_paths base_url rest best requested
      end
  end.

Definition scan_site (company : Company) : Py (ScanResult * list string) :=
  let base_url := normalize_base_url (dict_get company "website" "") in
  let company_name := dict_get company "company_name" "" in
  if negb (PyStr.truthy base_url) then
    Ret ({| company_name := company_name; website := "";
            calendar_confidence := 0; sr_evidence_url := None;
            sr_evidence_type := None;
            sr_evidence_detail := Some "no_website" |}, [])
  else
    '(best, requested) ← scan_paths base_url CANDIDATE_PATHS no_evidence [];
    Ret ({| company_name := company_name; website := base_url;
            calendar_confidence := score best;
            sr_evidence_url := evidence_url best;
            sr_evidence_type := evidence_type best;
            sr_evidence_detail := evidence_detail best |}, requested).

(** *** What the scan is meant to compute, said without the loop *)







End ScanSite.

(** ** Phone mode: one number *)

Definition PAGES_TO_SCAN : list string :=
  [ "/contact"; "/contact-us"; "/about"; "/about-us"; "/our-team";
    "/meet-the-team"; "/staff"; "/owners"; "/property-management";
    "/emergency" ].

Definition BLACKLIST_CONTEXT : list string :=
  [ "llc"; "license"; "broker"; "registered"; "copyright"; "reserved";
    "fax"; "facsimile"; "toll free"; "reservations"; "bookings";
    "front desk" ].

Record CategoryInfo : Type := {
  keywords : list string;
  strategy : string
}.

(** The dictionary [CATEGORIES], one definition per key. *)
Module CATEGORIES.
Definition OPS_MAINTENANCE : CategoryInfo :=
  {| keywords := [ "emergency"; "after hours"; "urgent"; "maintenance";
                   "on-call"; "housekeeping"; "cleaning"; "inspector"; "field" ];
     strategy := "Vendor/Maintenance Script" |}.
Definition DIRECT_MOBILE : CategoryInfo :=
  {| keywords := [ "cell"; "mobile"; "direct"; "text"; "sms"; "personal" ];
     strategy := "Text First / Direct Call" |}.
Definition GROWTH_OWNER : CategoryInfo :=
  {| keywords := [ "owner services"; "property management"; "list with us";
                   "homeowner"; "revenue"; "partnership" ];
     strategy := "Asset Protection Script" |}.
Definition NAMED_CONTACT : CategoryInfo :=
  {| keywords := []; strategy := "Name Drop Call" |}.
End CATEGORIES.

(** The fields are the Python values the constructor receives:
    [category] and [suggested_strategy] come from local variables that
    start as [None]. *)
Record SniperResult : Type := {
  sn_company_name : string;
  sn_website : string;
  phone_number : string;
  contact_name : option string;
  role_or_context : string;
  category : option string;
  suggested_strategy : option string;
  confidence_score : Z
}.

(** [" ".join(text.split())]. *)
Definition clean_text (text : string) : string :=
  PyStr.join " " (PyStr.split_ws text).

(** The pattern [([A-Z][a-z]+(?:\s[A-Z][a-z]+){1,2})]; its group 1 is the
    whole match. *)
Definition capitalized_word : Re.re :=
  Re.Cat (Re.Cls PyStr.is_upper_az) (Re.Plus PyStr.is_lower_az).
Definition space_then_word : Re.re :=
  Re.Cat (Re.Cls PyStr.isspace) capitalized_word.
Definition NAME_PATTERN : Re.re :=
  Re.Cat capitalized_word (Re.Cat space_then_word (Re.Opt space_then_word)).

(** The list the extracted name, lowered, is looked up in. *)
Definition NAME_FALSE_POSITIVES : list string :=
  [ "Contact Us"; "Call Us"; "Toll Free"; "Phone Number"; "Emergency Call";
    "After Hours" ].

Definition extract_name_before_number (text_before : string) : option string :=
  let segment := PyStr.slice text_before (Some (-40)) None in
  match Re.search NAME_PATTERN segment with
  | Some name =>
      if existsb (String.eqb (PyStr.lower name)) NAME_FALSE_POSITIVES
      then None
      else Some name
  | None => None
  end.

(** [any(k in context for k in words)]. *)
Definition any_in (words : list string) (context : string) : bool :=
  existsb (fun k => PyStr.contains k context) words.

(** The context of a match: [text_before], [text_after] and
    [full_context]. *)
Definition text_before_of (text_content : string) (match_start : Z) : string :=
  PyStr.slice text_content (Some (Z.max 0 (match_start - 60))) (Some match_start).
Definition text_after_of (text_content : string) (match_end : Z) : string :=
  PyStr.slice text_content (Some match_end)
    (Some (Z.min (PyStr.len text_content) (match_end + 60))).
Definition full_context_of (text_content : string) (match_start match_end : Z) : string :=
  PyStr.lower (text_before_of text_content match_start ++ " "
               ++ text_after_of text_content match_end).

(** The category check: category, strategy and confidence after the
    [if]/[elif] chain. *)
Definition category_check (full_context : string) : option string * option string * Z :=
  if any_in (keywords CATEGORIES.OPS_MAINTENANCE) full_context then
    (Some "OPS_MAINTENANCE", Some (strategy CATEGORIES.OPS_MAINTENANCE), 90)
  else if any_in (keywords CATEGORIES.DIRECT_MOBILE) full_context then
    (Some "DIRECT_MOBILE", Some (strategy CATEGORIES.DIRECT_MOBILE), 95)
  else if any_in (keywords CATEGORIES.GROWTH_OWNER) full_context then
    (Some "GROWTH_OWNER", Some (strategy CATEGORIES.GROWTH_OWNER), 85)
  else (None, None, 0).

(** Truthiness of an [Optional[str]]. *)
Definition truthy_opt (o : option string) : bool :=
  match o with Some s => PyStr.truthy s | None => false end.

(** The name check: what the extracted name does to the three locals. *)
Definition name_check (extracted_name : option string)
    (locals : option string * option string * Z) : option string * option string * Z :=
  let '(category, strategy_, confidence) := locals in
  if truthy_opt extracted_name then
    if negb (truthy_opt category) then
      (Some "NAMED_CONTACT", Some (strategy CATEGORIES.NAMED_CONTACT), 80)
    else (category, strategy_, 100)
  else locals.

(** [analyze_number]; [formatted_number] is the national format of the
    number object, which the phonenumbers library computes. *)
Definition analyze_number (formatted_number text_content : string)
    (match_start match_end : Z) : option SniperResult :=
  let text_before := text_before_of text_content match_start in
  let text_after := text_after_of text_content match_end in
  let full_context := full_context_of text_content match_start match_end in
  if any_in BLACKLIST_CONTEXT full_context then None
  else
    let extracted_name := extract_name_before_number text_before in
    let '(category, strategy_, confidence) :=
      name_check extracted_name (category_check full_context) in
    if negb (truthy_opt category) then None
    else
      Some {| sn_company_name := ""; sn_website := "";
              phone_number := formatted_number;
              contact_name := extracted_name;
              role_or_context :=
                clean_text (PyStr.slice text_before (Some (-30)) None
                            ++ " [NUM] " ++ PyStr.slice text_after None (Some 30));
              category := category;
              suggested_strategy := strategy_;
              confidence_score := confidence |}.

(** ** Phone mode: one company *)

Section ProcessCompany.

Variable session_get : string -> Headers -> Py Response.
Variable urljoin : string -> string -> string.
Variable urlparse_netloc : string -> string.

(** The text of a page: [BeautifulSoup(html, "html.parser")] with its
    [script], [style], [noscript] and [footer] tags decomposed, then
    [get_text(separator=" | ")]. *)
Variable page_text : string -> string.

(** The phonenumbers library: number objects, their national format, and
    [PhoneNumberMatcher(text, "US")] as the list of its matches. *)
Variable PhoneNumber : Type.
Variable format_national : PhoneNumber -> string.

Record PhoneNumberMatch : Type := {
  number : PhoneNumber;
  start : Z;
  end_ : Z
}.

Variable PhoneNumberMatcher : string -> list PhoneNumberMatch.

(** [found_leads] and [seen_numbers]. *)
Definition Leads : Type := list SniperResult * gset string.

(** The body of the loop over the matches of a page. *)
Definition match_step (company_name base_url text_content : string)
    (st : Leads) (m : PhoneNumberMatch) : Leads :=
  let '(found_leads, seen_numbers) := st in
  match analyze_number (format_national (number m)) text_content (start m) (end_ m) with
  | Some result =>
      if decide (phone_number result ∈ seen_numbers) then st
      else
        let result :=
          {| sn_company_name := company_name; sn_website := base_url;
             phone_number := phone_number result;
             contact_name := contact_name result;
             role_or_context := role_or_context result;
             category := category result;
             suggested_strategy := suggested_strategy result;
             confidence_score := confidence_score result |} in
        ((found_leads ++ [result])%list, seen_numbers ∪ {[ phone_number result ]})
  | None => st
  end.

(** The body of the loop over the URLs, for a page that was fetched. *)
Definition process_page (company_name base_url html : string) (st : Leads) : Leads :=
  let text_content := page_text html in
  let matches := PhoneNumberMatcher text_content in
  if Z.of_nat (length matches) >? 15 then st
  else fold_left (match_step company_name base_url text_content) matches st.

Fixpoint process_urls (company_name base_url : string) (urls : list string)
    (st : Leads) : Py Leads :=
  match urls with
  | [] => Ret st
  | url :: rest =>
      html ← fetch_html session_get url;
      if negb (PyStr.truthy html) then process_urls company_name base_url rest st
      else process_urls company_name base_url rest
             (process_page company_name base_url html st)
  end.

(** [process_company].  The set [urls_to_scan] is walked in the order of
    [elements], one of the orders in which Python may iterate it. *)
Definition process_company (company : Company) : Py (list SniperResult) :=
  let base_url := PyStr.strip (dict_get company "website" "") in
  let company_name := dict_get company "company_name" "Unknown" in
  if negb (PyStr.truthy base_url) then Ret []
  else
    let base_url :=
      if negb (PyStr.startswith "http" base_url) then "https://" ++ base_url
      else base_url in
    let base_domain := urlparse_scheme base_url ++ "://" ++ urlparse_netloc base_url in
    let urls_to_scan : gset string :=
      fold_left (fun urls path => urls ∪ {[ urljoin base_domain path ]})
        PAGES_TO_SCAN {[ base_url ]} in
    st ← process_urls company_name base_url (elements urls_to_scan) ([], ∅);
    Ret (fst st).

End ProcessCompany.

(** ** Scan coordinators *)

Section Coordinator.

(** A task is known to its coordinator by what awaiting it gives: a
    result, or the exception the scan raised.  [asyncio.as_completed]
    hands the tasks over in the order they finish; the coordinators below
    take them in that order. *)

(** The loop of [scan_calendars.main]: [result = await task], then
    [results.append(result)]. *)
Fixpoint await_results (in_completion_order : list (Py ScanResult))
    (results : list ScanResult) : Py (list ScanResult) :=
  match in_completion_order with
  | [] => Ret results
  | task :: rest =>
      result ← task;
      await_results rest (results ++ [result])%list
  end.

Definition CONFIDENCE_THRESHOLD : Z := 60.

(** [scan_calendars.main] after the CSV is read: the results gathered and
    the rows written to the report. *)
Definition calendar_main (scan : Company -> Py ScanResult)
    (completion_order : list Company) : Py (list ScanResult * list ScanResult) :=
  results ← await_results (map scan completion_order) [];
  Ret (results,
       filter (fun r => calendar_confidence r >=? CONFIDENCE_THRESHOLD) results).

(** [worker] of [scan_phone_numbers.main]: the number of leads of one
    company (the rows it appends to the report are not modelled). *)
Definition worker (process : Company -> Py (list SniperResult))
    (company : Company) : Py Z :=
  results ← process company;
  Ret (Z.of_nat (length results)).

(** The loop of [scan_phone_numbers.main]: [count = await future], then
    the two counters. *)
Fixpoint await_counts (in_completion_order : list (Py Z))
    (total_leads completed : Z) : Py (Z * Z) :=
  match in_completion_order with
  | [] => Ret (total_leads, completed)
  | future :: rest =>
      count ← future;
      await_counts rest (total_leads + count) (completed + 1)
  end.

(** [scan_phone_numbers.main]: the total of the leads and the number of
    companies completed. *)
Definition phone_main (process : Company -> Py (list SniperResult))
    (completion_order : list Company) : Py (Z * Z) :=
  await_counts (map (worker process) completion_order) 0 0.

End Coordinator.

(** * Statements and sample inputs

    The predicates the properties are stated with, the behaviour the
    specification words where it differs from the code, and concrete
    collaborators, pages and companies to evaluate the scanners on. *)

(** ** Invariants of the scanners *)



(** The patterns that cannot match the empty text. *)
Fixpoint consuming (r : Re.re) : bool :=
  match r with
  | Re.Cls _ | Re.Plus _ => true
  | Re.Lit l => PyStr.truthy l
  | Re.Cat r1 r2 => consuming r1 || consuming r2
  | Re.Alt r1 r2 => consuming r1 && consuming r2
  | Re.Opt _ => false
  end.

(** ** The specification's wording *)


(** The body a fetcher hands back for the outcome of a request, when it
    accepts the statuses [ok]: any exception, of the request or of reading
    the body, and any other status give no content. *)
Definition body_when (ok : Z -> bool) (outcome : Py Response) : option string :=
  match outcome with
  | Ret resp =>
      if ok (status resp) then
        match text resp with
        | Ret body => Some body
        | Raise _ => None
        end
      else None
  | Raise _ => None
  end.

Definition USER_AGENT : Headers := [("User-Agent", "Mozilla/5.0")].

(** The contract as the specification words it, for both fetchers: the
    body for every status below 400. *)
Definition fetchers_accept_below_400
    (session_get : string -> Headers -> Py Response) (url : string) : Prop :=
  fetch session_get url
    = Ret (url, body_when (fun st => st <? 400) (session_get url []))
  /\ fetch_html session_get url
    = Ret (default "" (body_when (fun st => st <? 400) (session_get url USER_AGENT))).

(** The coordinators as the specification words them: whatever the scans
    do, one completed result per company submitted, in both modes. *)
Definition coordinators_complete_all
    (scan : Company -> Py ScanResult)
    (process : Company -> Py (list SniperResult))
    (completion_order : list Company) : Prop :=
  (exists results rows,
      calendar_main scan completion_order = Ret (results, rows)
      /\ length results = length completion_order)
  /\ (exists total_leads,
         phone_main process completion_order
         = Ret (total_leads, Z.of_nat (length completion_order))).



(** ** Sample collaborators and inputs *)

(** Stand-ins for the collaborators, for evaluating the scanners on
    concrete pages.  [urljoin] is right for an absolute reference, an
    empty one, and a plain relative path against a base that ends with a
    slash; [path_of] is the path of [urlparse] for an [http(s)] URL. *)
Module Sample.

Definition urljoin (base url : string) : string :=
  if PyStr.contains "://" url then url else base ++ url.

Fixpoint until_any (stops : string) (s : string) : string :=
  match s with
  | EmptyString => EmptyString
  | String c s' =>
      if PyStr.has_char c stops then EmptyString else String c (until_any stops s')
  end.

Fixpoint after_separator (s : string) : string :=
  if PyStr.startswith "://" s then PyStr.drop 3 s
  else match s with
       | EmptyString => EmptyString
       | String _ s' => after_separator s'
       end.

Definition path_of (url : string) : string :=
  let rest := after_separator url in
  until_any "?#" (PyStr.drop (String.length (until_any "/?#" rest)) rest).

(** The home page of the first end-to-end scenario:
    [<a href="https://calendly.com/acme">Book a call</a>]. *)
Definition calendly_link : Tag :=
  {| tag_href := Some "https://calendly.com/acme"; tag_src := None;
     tag_text := "Book a call" |}.

Definition calendly_home : Soup :=
  {| soup_tags := [calendly_link]; soup_text := "Book a call" |}.

(** A page with an internal link only. *)
Definition owners_home : Soup :=
  {| soup_tags := [ {| tag_href := Some "schedule"; tag_src := None;
                       tag_text := "Talk to us" |} ];
     soup_text := "Talk to us" |}.

Definition parser (html : string) : Soup :=
  if PyStr.contains "calendly" html then calendly_home
  else if PyStr.contains "schedule" html then owners_home
  else {| soup_tags := []; soup_text := html |}.

End Sample.

(** A network for the examples: the home page links to [/schedule], the
    contact page is missing, the owners page embeds a Calendly link, and
    no other page answers in time. *)
Definition sample_network (url : string) (headers : Headers) : Py Response :=
  if String.eqb url "https://acme.com/" then
    Ret {| status := 200; text := Ret "<a href=schedule>Talk to us</a>" |}
  else if String.eqb url "https://acme.com/contact" then
    Ret {| status := 404; text := Ret "Not found" |}
  else if String.eqb url "https://acme.com/owners" then
    Ret {| status := 200;
           text := Ret "<a href=https://calendly.com/acme>Book a call</a>" |}
  else Raise TimeoutError.

Definition acme : Company :=
  {[ "company_name" := "Acme Rentals"; "website" := " acme.com " ]}.

(** Stand-ins for the collaborators of the phone scanner: pages are plain
    text, numbers are recognised in the form [(ddd) ddd-dddd] and are
    their own national format, and the host of an [http(s)] URL is its
    [netloc]. *)
Module PhoneSample.

Definition digits (n : nat) : Re.re :=
  Nat.iter n (Re.Cat (Re.Cls PyStr.is_digit)) (Re.Lit "").

Definition number_shape : Re.re :=
  Re.Cat (Re.Lit "(") (Re.Cat (digits 3) (Re.Cat (Re.Lit ") ")
    (Re.Cat (digits 3) (Re.Cat (Re.Lit "-") (digits 4))))).

Fixpoint matches_from (pos : Z) (text : string) : list (PhoneNumberMatch string) :=
  match text with
  | EmptyString => []
  | String _ text' =>
      match Re.match_here number_shape text with
      | Some found =>
          {| number := found; start := pos; end_ := pos + PyStr.len found |}
          :: matches_from (pos + 1) text'
      | None => matches_from (pos + 1) text'
      end
  end.

Definition matcher (text : string) : list (PhoneNumberMatch string) :=
  matches_from 0 text.

Definition netloc_of (url : string) : string :=
  Sample.until_any "/?#" (Sample.after_separator url).

Definition process_page := process_page (fun html => html) string (fun n => n) matcher.

(** A staff directory with sixteen direct lines. *)
Definition directory : string :=
  "Ann Lee direct (555) 010-0001 | Bob Ray direct (555) 010-0002 | "
  ++ "Cy Doe direct (555) 010-0003 | Di Fox direct (555) 010-0004 | "
  ++ "Ed Gil direct (555) 010-0005 | Flo Hix direct (555) 010-0006 | "
  ++ "Gus Ito direct (555) 010-0007 | Hal Jay direct (555) 010-0008 | "
  ++ "Ida Kim direct (555) 010-0009 | Jo Lam direct (555) 010-0010 | "
  ++ "Kay Moe direct (555) 010-0011 | Lou Nye direct (555) 010-0012 | "
  ++ "Mo Orr direct (555) 010-0013 | Ned Poe direct (555) 010-0014 | "
  ++ "Oz Qua direct (555) 010-0015 | Pam Rex direct (555) 010-0016".

(** The same page cut after its second line. *)
Definition short_directory : string := PyStr.slice directory None (Some 61).

End PhoneSample.

(** Companies and coordinator tasks for sample runs. *)
Module SampleRun.

Definition beta : Company :=
  {[ "company_name" := "Beta Stays"; "website" := "" ]}.

Definition gamma : Company :=
  {[ "company_name" := "Gamma Homes"; "website" := "http://[::1" ]}.

(** The task of the calendar coordinator for a company. *)
Definition scan (company : Company) : Py ScanResult :=
  run ← scan_site sample_network Sample.urljoin Sample.path_of Sample.parser company;
  Ret (fst run).

(** The task of the phone coordinator for a company. *)
Definition process (company : Company) : Py (list SniperResult) :=
  process_company sample_network Sample.urljoin PhoneSample.netloc_of
    (fun html => html) string (fun n => n) PhoneSample.matcher company.

(** The same tasks when urllib rejects the unmatched bracket in the
    website of [gamma]: [urlparse] then raises [ValueError] inside the
    scan, which catches exceptions around its requests only.  The
    collaborators above are total, so the exception is given to the tasks
    here. *)
Definition rejects (company : Company) : bool :=
  String.eqb (dict_get company "website" "") "http://[::1".

Definition scan_rejecting (company : Company) : Py ScanResult :=
  if rejects company then Raise ValueError else scan company.

Definition process_rejecting (company : Company) : Py (list SniperResult) :=
  if rejects company then Raise ValueError else process company.

End SampleRun.

(** ** The signals of a page *)

(** The checks of [analyze_page], one candidate evidence per check that
    fires, in the order the checks are made: for every tag with a link,
    the first host pattern, the first path keyword and the anchor text;
    then the first text pattern of the page. *)
Section Signals.

Variable urljoin : string -> string -> string.
Variable urlparse_path : string -> string.

(** The resolved URL of a tag that has a link. *)
Definition linked_url (page_url : string) (tag : Tag) : option string :=
  match href_or_src tag with
  | Some href => if PyStr.truthy href then Some (urljoin page_url href) else None
  | None => None
  end.

Definition host_hit (full_url : string) : option string :=
  List.find (fun pattern => PyStr.contains pattern (PyStr.lower full_url))
    SCHEDULER_HOST_PATTERNS.

Definition path_hit (full_url : string) : option string :=
  List.find (fun kw => PyStr.contains kw (PyStr.lower (urlparse_path full_url)))
    SCHEDULER_PATH_KEYWORDS.

Definition anchor_text_of (tag : Tag) : string :=
  PyStr.lower (PyStr.strip (tag_text tag)).

Definition anchor_hit (tag : Tag) : bool :=
  PyStr.contains "schedule" (anchor_text_of tag)
  || PyStr.contains "book" (anchor_text_of tag).

Definition text_hit (full_text : string) : option (string * Re.re) :=
  List.find (fun pattern => Re.found (snd pattern) (PyStr.lower full_text))
    TEXT_PATTERNS.

Definition evidence_of (sc : Z) (url typ detail : string) : Evidence :=
  {| score := sc; evidence_url := Some url; evidence_type := Some typ;
     evidence_detail := Some detail |}.

Definition host_signal (full_url : string) : list Evidence :=
  match host_hit full_url with
  | Some pattern =>
      [evidence_of 100 full_url "external_scheduler"
         ("matched scheduler host pattern: " ++ pattern)]
  | None => []
  end.

Definition path_signal (full_url : string) : list Evidence :=
  match path_hit full_url with
  | Some kw =>
      [evidence_of 60 full_url "internal_link" ("matched path keyword: " ++ kw)]
  | None => []
  end.

Definition anchor_signal (full_url : string) (tag : Tag) : list Evidence :=
  if anchor_hit tag then
    [evidence_of 50 full_url "text"
       ("anchor text: " ++ PyStr.slice (anchor_text_of tag) None (Some 80))]
  else [].

Definition tag_signals (page_url : string) (tag : Tag) : list Evidence :=
  match linked_url page_url tag with
  | Some full_url =>
      (host_signal full_url ++ path_signal full_url
       ++ anchor_signal full_url tag)%list
  | None => []
  end.

Definition text_signal (page_url full_text : string) : list Evidence :=
  match text_hit full_text with
  | Some pattern =>
      [evidence_of 70 page_url "text" ("matched text pattern: " ++ fst pattern)]
  | None => []
  end.

Definition page_signals (soup : Soup) (page_url : string) : list Evidence :=
  (flat_map (tag_signals page_url) (soup_tags soup)
   ++ text_signal page_url (soup_text soup))%list.



Definition has_link (tag : Tag) : bool :=
  match href_or_src tag with
  | Some href => PyStr.truthy href
  | None => false
  end.

End Signals.

(** ** The tasks of the coordinators *)


(** ** The reports *)

(** What a [csv.DictWriter] is asked to write: the header, or the row of
    a record. *)
Inductive CsvLine (Row : Type) : Type :=
| HeaderLine (fieldnames : list string)
| RowLine (row : Row).
Arguments HeaderLine {Row} fieldnames.
Arguments RowLine {Row} row.


Definition SNIPER_FIELDNAMES : list string :=
  [ "confidence_score"; "suggested_strategy"; "category"; "contact_name";
    "phone_number"; "company_name"; "role_or_context"; "website" ].


(** The report of the phone scanner: [None] while the file does not
    exist. *)
Definition SniperFile : Type := option (list (CsvLine SniperResult)).

(** [append_to_csv]. *)
Definition append_to_csv (results : list SniperResult) (file : SniperFile) : SniperFile :=
  match results with
  | [] => file
  | _ =>
      let lines :=
        match file with
        | Some lines => lines
        | None => [HeaderLine SNIPER_FIELDNAMES]
        end in
      Some (lines ++ map RowLine results)%list
  end.

(** [worker] of [scan_phone_numbers.main] with the report it appends
    to. *)
Definition worker_appending (process : Company -> Py (list SniperResult))
    (company : Company) (file : SniperFile) : Py Z * SniperFile :=
  match process company with
  | Ret results =>
      (Ret (Z.of_nat (length results)),
       match results with [] => file | _ => append_to_csv results file end)
  | Raise e => (Raise e, file)
  end.

(** The loop of [scan_phone_numbers.main] with the report: the workers
    append as they complete. *)
Fixpoint await_appending (process : Company -> Py (list SniperResult))
    (completion_order : list Company) (total_leads completed : Z)
    (file : SniperFile) : Py (Z * Z) * SniperFile :=
  match completion_order with
  | [] => (Ret (total_leads, completed), file)
  | company :: rest =>
      match worker_appending process company file with
      | (Ret count, file) =>
          await_appending process rest (total_leads + count) (completed + 1) file
      | (Raise e, file) => (Raise e, file)
      end
  end.

(** [scan_phone_numbers.main] with the report: a report left by an
    earlier run is deleted first. *)
Definition phone_main_appending (process : Company -> Py (list SniperResult))
    (completion_order : list Company) (old_file : SniperFile)
    : Py (Z * Z) * SniperFile :=
  await_appending process completion_order 0 0 None.

(** ** Leads *)

(** The pairs of a category and its strategy in [CATEGORIES]. *)
Definition category_table : list (string * string) :=
  [ ("OPS_MAINTENANCE", strategy CATEGORIES.OPS_MAINTENANCE);
    ("DIRECT_MOBILE", strategy CATEGORIES.DIRECT_MOBILE);
    ("GROWTH_OWNER", strategy CATEGORIES.GROWTH_OWNER);
    ("NAMED_CONTACT", strategy CATEGORIES.NAMED_CONTACT) ].

(** What every lead of [analyze_number] is: a category of the table with
    its strategy, at a confidence of 80 or more, which is 80 exactly for a
    named contact, who has a name. *)
Definition sound_lead (lead : SniperResult) : Prop :=
  (exists cat strat,
      In (cat, strat) category_table
      /\ category lead = Some cat /\ suggested_strategy lead = Some strat)
  /\ 80 <= confidence_score lead <= 100
  /\ (category lead = Some "NAMED_CONTACT" <-> confidence_score lead = 80)
  /\ (category lead = Some "NAMED_CONTACT" -> contact_name lead <> None)
  /\ (confidence_score lead = 100 <->
      contact_name lead <> None /\ category lead <> Some "NAMED_CONTACT").

(** A word of [str.split]: not empty, and without whitespace. *)
Definition is_word (w : string) : Prop :=
  w <> "" /\ PyStr.forallb_str (fun c => negb (PyStr.isspace c)) w = true.

(** The base URL [process_company] scans and stamps on its leads. *)
Definition phone_base_url (company : Company) : string :=
  let base_url := PyStr.strip (dict_get company "website" "") in
  if negb (PyStr.startswith "http" base_url) then "https://" ++ base_url
  else base_url.

(** The invariant of the loops of [process_company]: the numbers of
    [found_leads] are distinct and are the members of [seen_numbers], and
    every lead is sound and stamped with the company. *)
Definition leads_invariant (company_name base_url : string) (st : Leads) : Prop :=
  NoDup (map phone_number (fst st))
  /\ (forall n, n ∈ snd st <-> In n (map phone_number (fst st)))
  /\ Forall (fun lead =>
               sn_company_name lead = company_name
               /\ sn_website lead = base_url
               /\ sound_lead lead) (fst st).

(** A network for the phone scanner: the staff page and the team page
    of Acme both show the short directory; nothing else answers. *)
Definition phone_network (url : string) (headers : Headers) : Py Response :=
  if String.eqb url "https://acme.com/staff"
     || String.eqb url "https://acme.com/our-team" then
    Ret {| status := 200; text := Ret PhoneSample.short_directory |}
  else Raise ClientConnectorError.

Definition phone_process (company : Company) : Py (list SniperResult) :=
  process_company phone_network Sample.urljoin PhoneSample.netloc_of
    (fun html => html) string (fun n => n) PhoneSample.matcher company.

(** The report that holds the rows of [leads]: no file at all when there
    are none, since an empty list is never appended. *)
Definition report_of (leads : list SniperResult) : SniperFile :=
  match leads with
  | [] => None
  | _ => Some (HeaderLine SNIPER_FIELDNAMES :: map RowLine leads)
  end.

(** * Properties *)

(** ** The URL normaliser *)


Lemma truthy_true_iff (s : string) : PyStr.truthy s = true <-> s <> "".
Proof. destruct s; simpl; split; congruence. Qed.








(** ** The page fetchers *)

Lemma fetch_result (session_get : string -> Headers -> Py Response) (url : string) :
  fetch session_get url
  = Ret (url, body_when (fun st => st <? 400) (session_get url [])).
Proof.
  unfold fetch, body_when.
  destruct (session_get url []) as [resp|e]; simpl; [|reflexivity].
  rewrite Z.geb_leb, Z.ltb_antisym.
  destruct (400 <=? status resp); simpl; [reflexivity|].
  destruct (text resp); reflexivity.
Qed.

Lemma fetch_html_result (session_get : string -> Headers -> Py Response) (url : string) :
  fetch_html session_get url
  = Ret (default "" (body_when (fun st => st =? 200) (session_get url USER_AGENT))).
Proof.
  unfold fetch_html, body_when, USER_AGENT.
  destruct (session_get url _) as [resp|e]; simpl; [|reflexivity].
  destruct (status resp =? 200); simpl; [|reflexivity].
  destruct (text resp); reflexivity.
Qed.

(** C3, as amended.  Neither fetcher ever raises.  [fetch] returns the
    body for every status below 400; [fetch_html] returns the body for
    status 200 only; for any other status, and for any exception of the
    request or of reading the body, [fetch] returns [None] and
    [fetch_html] the empty string. *)
Theorem fetchers_contract (session_get : string -> Headers -> Py Response)
    (url : string) :
  fetch session_get url
    = Ret (url, body_when (fun st => st <? 400) (session_get url []))
  /\ fetch_html session_get url
    = Ret (default "" (body_when (fun st => st =? 200) (session_get url USER_AGENT)))
  /\ raises (fetch session_get url) = false
  /\ raises (fetch_html session_get url) = false.
Proof.
  rewrite fetch_result, fetch_html_result. auto.
Qed.

(** C3, as the specification states it, fails for [fetch_html]: a
    response with status 203 and a body is below 400, and [fetch_html]
    returns the empty string for it. *)
Lemma fetchers_accept_below_400_counterexample :
  ~ fetchers_accept_below_400
      (fun _ _ => Ret {| status := 203; text := Ret "<html>Call us</html>" |})
      "https://acme.com/contact".
Proof.
  intros [_ H]. discriminate H.
Qed.

(** ** Calendar mode: the evidence of one page *)







Section AnalyzePageFacts.

Variable urljoin : string -> string -> string.
Variable urlparse_path : string -> string.
Variable BeautifulSoup : string -> Soup.












End AnalyzePageFacts.

Example analyze_calendly_home :
  analyze_soup Sample.urljoin Sample.path_of Sample.calendly_home "https://acme.com/"
  = {| score := 100; evidence_url := Some "https://calendly.com/acme";
       evidence_type := Some "external_scheduler";
       evidence_detail := Some "matched scheduler host pattern: calendly.com" |}.
Proof. reflexivity. Qed.

Example analyze_owners_home :
  analyze_soup Sample.urljoin Sample.path_of Sample.owners_home "https://acme.com/"
  = {| score := 60; evidence_url := Some "https://acme.com/schedule";
       evidence_type := Some "internal_link";
       evidence_detail := Some "matched path keyword: schedule" |}.
Proof. reflexivity. Qed.

Example analyze_text_only :
  analyze_soup Sample.urljoin Sample.path_of
    {| soup_tags := []; soup_text := "Owners: Schedule an intro today" |}
    "https://acme.com/"
  = {| score := 70; evidence_url := Some "https://acme.com/";
       evidence_type := Some "text";
       evidence_detail := Some "matched text pattern: schedule an? (appointment|intro)" |}.
Proof. reflexivity. Qed.




(** ** Calendar mode: the best evidence of a site *)






Section ScanSiteFacts.

Variable session_get : string -> Headers -> Py Response.
Variable urljoin : string -> string -> string.
Variable urlparse_path : string -> string.
Variable BeautifulSoup : string -> Soup.




End ScanSiteFacts.



Example scan_site_acme :
  scan_site sample_network Sample.urljoin Sample.path_of Sample.parser acme
  = Ret ({| company_name := "Acme Rentals"; website := "https://acme.com";
            calendar_confidence := 100;
            sr_evidence_url := Some "https://calendly.com/acme";
            sr_evidence_type := Some "external_scheduler";
            sr_evidence_detail :=
              Some "matched scheduler host pattern: calendly.com" |},
         [ "https://acme.com/"; "https://acme.com/contact";
           "https://acme.com/contact-us"; "https://acme.com/contactus";
           "https://acme.com/owners" ]).
Proof. vm_compute. reflexivity. Qed.



(** ** The scan coordinators *)

Lemma await_results_all (tasks : list (Py ScanResult)) (results : list ScanResult) :
  (forall task, In task tasks -> raises task = false) ->
  exists more,
    await_results tasks results = Ret (results ++ more)%list
    /\ tasks = map Ret more.
Proof.
  revert results. induction tasks as [|task rest IH]; intros results Hok.
  - exists []. simpl. now rewrite app_nil_r.
  - destruct task as [r|e].
    + destruct (IH (results ++ [r])%list) as (more & Hrun & Hmore).
      { intros t Ht. apply Hok. now right. }
      exists (r :: more). simpl. rewrite Hrun, <- app_assoc. simpl.
      now rewrite Hmore.
    + specialize (Hok (Raise e) (or_introl eq_refl)). discriminate.
Qed.

Lemma await_results_raises (tasks : list (Py ScanResult)) (results : list ScanResult)
    (task : Py ScanResult) :
  In task tasks -> raises task = true ->
  raises (await_results tasks results) = true.
Proof.
  revert results. induction tasks as [|t rest IH]; intros results Hin Hr; [easy|].
  destruct t as [r|e]; simpl; [|reflexivity].
  destruct Hin as [<-|Hin]; [discriminate|]. now apply IH.
Qed.

Lemma await_counts_all (futures : list (Py Z)) (total_leads completed : Z) :
  (forall future, In future futures -> raises future = false) ->
  exists total,
    await_counts futures total_leads completed
    = Ret (total, completed + Z.of_nat (length futures)).
Proof.
  revert total_leads completed.
  induction futures as [|future rest IH]; intros total_leads completed Hok.
  - exists total_leads. simpl. f_equal. f_equal. lia.
  - destruct future as [count|e].
    + destruct (IH (total_leads + count) (completed + 1)) as (total & Hrun).
      { intros f Hf. apply Hok. now right. }
      exists total. simpl length. simpl await_counts. rewrite Hrun.
      f_equal. f_equal. lia.
    + specialize (Hok (Raise e) (or_introl eq_refl)). discriminate.
Qed.

Lemma await_counts_raises (futures : list (Py Z)) (total_leads completed : Z)
    (future : Py Z) :
  In future futures -> raises future = true ->
  raises (await_counts futures total_leads completed) = true.
Proof.
  revert total_leads completed.
  induction futures as [|f rest IH]; intros total_leads completed Hin Hr; [easy|].
  destruct f as [count|e]; simpl; [|reflexivity].
  destruct Hin as [<-|Hin]; [discriminate|]. now apply IH.
Qed.

Lemma worker_raises (process : Company -> Py (list SniperResult)) (company : Company) :
  raises (worker process company) = raises (process company).
Proof. unfold worker. now destruct (process company). Qed.

(** C2, as amended.  Neither coordinator catches the exception of a
    scan.  When every scan returns, the calendar coordinator gathers the
    result of each company, one per company and in the order of
    completion, and the phone coordinator counts every company as
    completed.  When the scan of one company raises, awaiting it raises in
    the coordinator, which then returns no results at all. *)
Theorem coordinators_propagate_exceptions
    (scan : Company -> Py ScanResult)
    (process : Company -> Py (list SniperResult))
    (companies completion_order : list Company) :
  Permutation companies completion_order ->
  ((forall company, In company companies -> raises (scan company) = false) ->
   exists results rows,
     calendar_main scan completion_order = Ret (results, rows)
     /\ map scan completion_order = map Ret results
     /\ length results = length companies)
  /\ ((forall company, In company companies -> raises (process company) = false) ->
      exists total_leads,
        phone_main process completion_order
        = Ret (total_leads, Z.of_nat (length companies)))
  /\ (forall company, In company companies -> raises (scan company) = true ->
      raises (calendar_main scan completion_order) = true)
  /\ (forall company, In company companies -> raises (process company) = true ->
      raises (phone_main process completion_order) = true).
Proof.
  intros Hperm.
  assert (Hlen : length completion_order = length companies)
    by (symmetry; now apply Permutation_length).
  assert (Hin : forall company, In company completion_order -> In company companies)
    by (intros c Hc; eapply Permutation_in; [symmetry|]; eassumption).
  assert (Hin' : forall company, In company companies -> In company completion_order)
    by (intros c Hc; eapply Permutation_in; eassumption).
  split; [|split; [|split]].
  - intros Hok.
    destruct (await_results_all (map scan completion_order) []) as (more & Hrun & Hmore).
    { intros task Ht. apply in_map_iff in Ht as (c & <- & Hc). auto. }
    exists more, (filter (fun r => calendar_confidence r >=? CONFIDENCE_THRESHOLD) more).
    unfold calendar_main. rewrite Hrun. simpl. split; [reflexivity|].
    split; [assumption|].
    rewrite <- Hlen, <- (length_map scan), Hmore. now rewrite length_map.
  - intros Hok.
    destruct (await_counts_all (map (worker process) completion_order) 0 0)
      as (total & Hrun).
    { intros f Hf. apply in_map_iff in Hf as (c & <- & Hc).
      rewrite worker_raises. auto. }
    exists total. unfold phone_main. rewrite Hrun, length_map, Hlen. reflexivity.
  - intros company Hc Hr. unfold calendar_main.
    pose proof (await_results_raises (map scan completion_order) [] (scan company)
                  (in_map scan _ _ (Hin' _ Hc)) Hr) as H.
    destruct (await_results _ _); [discriminate | reflexivity].
  - intros company Hc Hr. unfold phone_main.
    apply (await_counts_raises _ _ _ (worker process company)).
    + apply in_map. auto.
    + now rewrite worker_raises.
Qed.

(** ** Phone mode: the name before a number *)

(** The matcher hands its continuation a suffix of its input. *)
Lemma plus_cls_consumes {A} (p : ascii -> bool) (s : string)
    (k : string -> option A) (x : A) :
  Re.plus_cls p s k = Some x ->
  exists rest, k rest = Some x /\ (String.length rest < String.length s)%nat.
Proof.
  induction s as [|c s IH]; simpl; [discriminate|].
  destruct (p c); [|discriminate].
  destruct (Re.plus_cls p s k) as [y|] eqn:E.
  - intros [= <-]. destruct (IH eq_refl) as (rest & Hk & Hl).
    exists rest. split; [assumption | lia].
  - intros Hk. exists s. split; [assumption | lia].
Qed.

Lemma lit_rest_length (l s rest : string) :
  Re.lit_rest l s = Some rest ->
  (String.length rest + String.length l <= String.length s)%nat.
Proof.
  revert s. induction l as [|a l IH]; intros [|b s]; simpl;
    try discriminate; try (intros [= <-]; simpl; lia).
  destruct (Ascii.eqb a b); [|discriminate].
  intros H. apply IH in H. lia.
Qed.

Lemma run_consumes {A} (r : Re.re) (s : string) (k : string -> option A) (x : A) :
  Re.run r s k = Some x ->
  exists rest,
    k rest = Some x
    /\ (String.length rest + (if consuming r then 1 else 0) <= String.length s)%nat.
Proof.
  revert s k. induction r as [p|l|r1 IH1 r2 IH2|r1 IH1 r2 IH2|r1 IH1|p];
    intros s k; simpl.
  - destruct s as [|c s]; [discriminate|].
    destruct (p c); [|discriminate].
    intros Hk. exists s. simpl. split; [assumption | lia].
  - destruct (Re.lit_rest l s) as [s'|] eqn:E; [|discriminate].
    intros Hk. exists s'. split; [assumption|].
    apply lit_rest_length in E. destruct l; simpl in *; lia.
  - intros H. apply IH1 in H as (s1 & H & L1).
    apply IH2 in H as (s2 & H & L2). exists s2. split; [assumption|].
    destruct (consuming r1), (consuming r2); simpl in *; lia.
  - destruct (Re.run r1 s k) as [y|] eqn:E.
    + intros [= <-]. apply IH1 in E as (rest & Hk & L). exists rest.
      split; [assumption|].
      destruct (consuming r1), (consuming r2); simpl in *; lia.
    + intros H. apply IH2 in H as (rest & Hk & L). exists rest.
      split; [assumption|].
      destruct (consuming r1), (consuming r2); simpl in *; lia.
  - destruct (Re.run r1 s k) as [y|] eqn:E.
    + intros [= <-]. apply IH1 in E as (rest & Hk & L). exists rest.
      split; [assumption | lia].
    + intros Hk. exists s. split; [assumption | lia].
  - intros H. apply plus_cls_consumes in H as (rest & Hk & L).
    exists rest. split; [assumption | lia].
Qed.

(** A match of a consuming pattern is not empty. *)
Lemma search_nonempty (r : Re.re) (s name : string) :
  consuming r = true -> Re.search r s = Some name -> name <> "".
Proof.
  intros Hr. revert name. induction s as [|c s IH]; intros name;
    cbn [Re.search]; unfold Re.match_here.
  - destruct (Re.run r "" _) as [rest|] eqn:E; [|discriminate].
    apply run_consumes in E as (rest' & _ & L). rewrite Hr in L. simpl in L. lia.
  - destruct (Re.run r (String c s) _) as [rest|] eqn:E; [|apply IH].
    apply run_consumes in E as (rest' & [= ->] & L). rewrite Hr in L.
    intros [= <-]. cbn [String.length] in *.
    replace (S (String.length s) - String.length rest)%nat
      with (S (String.length s - String.length rest)) by lia.
    cbn [PyStr.take]. discriminate.
Qed.

(** No character is a capital A-Z after [lower]. *)
Lemma lower_char_not_upper (c : ascii) : PyStr.is_upper_az (PyStr.lower_char c) = false.
Proof. destruct c as [[] [] [] [] [] [] [] []]; reflexivity. Qed.

Lemma lower_starts_lower (s : string) (c : ascii) (rest : string) :
  PyStr.is_upper_az c = true -> PyStr.lower s <> String c rest.
Proof.
  intros Hc. destruct s as [|b s]; simpl; [discriminate|].
  intros [= Hb _]. pose proof (lower_char_not_upper b). congruence.
Qed.

(** The lookup of the lowered name in the capitalised list never
    succeeds. *)
Lemma false_positive_lookup (name : string) :
  existsb (String.eqb (PyStr.lower name)) NAME_FALSE_POSITIVES = false.
Proof.
  unfold NAME_FALSE_POSITIVES. cbn [existsb].
  repeat match goal with
  | |- context [String.eqb ?a ?b] =>
      let E := fresh in
      destruct (String.eqb a b) eqn:E;
      [apply String.eqb_eq in E; exfalso;
       revert E; apply lower_starts_lower; reflexivity|]
  end.
  reflexivity.
Qed.

Lemma extract_name_is_search (text_before : string) :
  extract_name_before_number text_before
  = Re.search NAME_PATTERN (PyStr.slice text_before (Some (-40)) None).
Proof.
  unfold extract_name_before_number.
  destruct (Re.search _ _) as [name|]; [|reflexivity].
  now rewrite false_positive_lookup.
Qed.

Lemma extract_name_nonempty (text_before name : string) :
  extract_name_before_number text_before = Some name -> PyStr.truthy name = true.
Proof.
  rewrite extract_name_is_search. intros H.
  apply truthy_true_iff. revert H. now apply search_nonempty.
Qed.








(** ** Phone mode: category and confidence of a number *)

Example maintenance_line :
  analyze_number "(555) 123-4567"
    "for repairs call our maintenance line at (555) 123-4567 any day" 41 55
  = Some {| sn_company_name := ""; sn_website := "";
            phone_number := "(555) 123-4567"; contact_name := None;
            role_or_context := "call our maintenance line at [NUM] any day";
            category := Some "OPS_MAINTENANCE";
            suggested_strategy := Some "Vendor/Maintenance Script";
            confidence_score := 90 |}.
Proof. reflexivity. Qed.

Example named_owner_contact :
  analyze_number "(555) 222-3333"
    "ask for Greg Ku at (555) 222-3333 for owner services" 19 33
  = Some {| sn_company_name := ""; sn_website := "";
            phone_number := "(555) 222-3333"; contact_name := Some "Greg Ku";
            role_or_context := "ask for Greg Ku at [NUM] for owner services";
            category := Some "GROWTH_OWNER";
            suggested_strategy := Some "Asset Protection Script";
            confidence_score := 100 |}.
Proof. reflexivity. Qed.

(** C5.  For a match whose context passes the blacklist and holds a
    keyword of some category, [analyze_number] returns a lead whose
    category is the first that matches in the order operations and
    maintenance, direct and mobile, owner and growth.  Without a name the
    confidence is 90, 95 or 85 for these categories, always below 100;
    with a name it is 100. *)
Theorem category_by_priority (formatted_number text_content : string)
    (match_start match_end : Z) :
  let context := full_context_of text_content match_start match_end in
  let name := extract_name_before_number (text_before_of text_content match_start) in
  let ops := any_in (keywords CATEGORIES.OPS_MAINTENANCE) context in
  let direct := any_in (keywords CATEGORIES.DIRECT_MOBILE) context in
  let owner := any_in (keywords CATEGORIES.GROWTH_OWNER) context in
  any_in BLACKLIST_CONTEXT context = false ->
  ops || direct || owner = true ->
  exists lead,
    analyze_number formatted_number text_content match_start match_end = Some lead
    /\ category lead
       = Some (if ops then "OPS_MAINTENANCE"
               else if direct then "DIRECT_MOBILE" else "GROWTH_OWNER")
    /\ contact_name lead = name
    /\ (name = None ->
        confidence_score lead = (if ops then 90 else if direct then 95 else 85)
        /\ confidence_score lead < 100)
    /\ (name <> None -> confidence_score lead = 100).
Proof.
  intros context name ops direct owner Hblack Hany.
  unfold analyze_number. fold context. rewrite Hblack. fold name.
  unfold category_check. fold ops direct owner.
  destruct name as [n|] eqn:En.
  - apply extract_name_nonempty in En. unfold name_check.
    destruct ops, direct, owner; try discriminate Hany;
      cbn [truthy_opt]; rewrite En; cbn;
      (eexists; split; [reflexivity|]; cbn;
       repeat split; congruence).
  - destruct ops, direct, owner; try discriminate Hany; cbn;
      (eexists; split; [reflexivity|]; cbn;
       repeat split; (congruence || lia)).
Qed.

Lemma category_by_priority_witness :
  exists lead,
    analyze_number "(555) 123-4567"
      "for urgent repairs text our direct line at (555) 123-4567 any day" 43 57
    = Some lead
    /\ category lead = Some "OPS_MAINTENANCE"
    /\ confidence_score lead = 90.
Proof.
  destruct (category_by_priority "(555) 123-4567"
              "for urgent repairs text our direct line at (555) 123-4567 any day"
              43 57) as (lead & Hrun & Hcat & _ & Hconf & _).
  - reflexivity.
  - reflexivity.
  - exists lead. split; [exact Hrun|]. split; [exact Hcat|].
    apply Hconf. reflexivity.
Defined.

(** C10.  A lead that [analyze_number] returns has a category and a
    strategy, and its confidence is 80, 85, 90, 95 or 100: never below
    80. *)
Theorem emitted_lead_is_categorised (formatted_number text_content : string)
    (match_start match_end : Z) (lead : SniperResult) :
  analyze_number formatted_number text_content match_start match_end = Some lead ->
  category lead <> None
  /\ suggested_strategy lead <> None
  /\ (confidence_score lead = 80 \/ confidence_score lead = 85
      \/ confidence_score lead = 90 \/ confidence_score lead = 95
      \/ confidence_score lead = 100)
  /\ 80 <= confidence_score lead.
Proof.
  unfold analyze_number.
  set (context := full_context_of text_content match_start match_end).
  set (name := extract_name_before_number _).
  destruct (any_in BLACKLIST_CONTEXT context); [discriminate|].
  unfold category_check, name_check.
  destruct (truthy_opt name);
    destruct (any_in (keywords CATEGORIES.OPS_MAINTENANCE) context);
    destruct (any_in (keywords CATEGORIES.DIRECT_MOBILE) context);
    destruct (any_in (keywords CATEGORIES.GROWTH_OWNER) context);
    cbn; intros [= <-]; cbn; repeat split; (discriminate || lia || auto 6).
Qed.

Lemma emitted_lead_is_categorised_witness :
  exists lead,
    analyze_number "(555) 222-3333"
      "ask for Greg Ku at (555) 222-3333 weekdays" 19 33 = Some lead
    /\ category lead <> None /\ 80 <= confidence_score lead.
Proof.
  eexists. split; [reflexivity|].
  destruct (emitted_lead_is_categorised "(555) 222-3333"
              "ask for Greg Ku at (555) 222-3333 weekdays" 19 33 _ eq_refl)
    as (Hcat & _ & _ & Hmin).
  split; [exact Hcat | exact Hmin].
Defined.

(** ** Phone mode: the density guard *)

(** C7.  A page on which the recogniser finds more than 15 numbers, 16
    for instance, is skipped whole: it adds no lead and marks no number as
    seen, so the scan of the company goes on as if the page were not
    there. *)
Theorem dense_page_is_skipped
    (session_get : string -> Headers -> Py Response)
    (page_text : string -> string) (PhoneNumber : Type)
    (format_national : PhoneNumber -> string)
    (PhoneNumberMatcher : string -> list (PhoneNumberMatch PhoneNumber))
    (company_name base_url url html : string) (rest : list string)
    (st : Leads) :
  (15 < length (PhoneNumberMatcher (page_text html)))%nat ->
  process_page page_text PhoneNumber format_national PhoneNumberMatcher
    company_name base_url html st = st
  /\ (fetch_html session_get url = Ret html ->
      process_urls session_get page_text PhoneNumber format_national
        PhoneNumberMatcher company_name base_url (url :: rest) st
      = process_urls session_get page_text PhoneNumber format_national
          PhoneNumberMatcher company_name base_url rest st).
Proof.
  intros Hdense.
  assert (Hskip : process_page page_text PhoneNumber format_national
                    PhoneNumberMatcher company_name base_url html st = st).
  { unfold process_page.
    destruct (Z.of_nat (length (PhoneNumberMatcher (page_text html))) >? 15) eqn:E;
      [reflexivity | lia]. }
  split; [exact Hskip|].
  intros Hfetch. cbn [process_urls]. rewrite Hfetch. cbn.
  destruct (PyStr.truthy html); cbn; [now rewrite Hskip | reflexivity].
Qed.

Example directory_has_sixteen_numbers :
  length (PhoneSample.matcher PhoneSample.directory) = 16%nat.
Proof. vm_compute. reflexivity. Qed.

Example short_directory_leads :
  map (fun lead => (phone_number lead, contact_name lead, category lead,
                    confidence_score lead))
    (fst (PhoneSample.process_page "Acme" "https://acme.com"
            PhoneSample.short_directory ([], ∅)))
  = [ ("(555) 010-0001", Some "Ann Lee", Some "DIRECT_MOBILE", 100);
      ("(555) 010-0002", Some "Bob Ray", Some "DIRECT_MOBILE", 100) ].
Proof. vm_compute. reflexivity. Qed.

Lemma dense_page_is_skipped_witness :
  PhoneSample.process_page "Acme" "https://acme.com" PhoneSample.directory ([], ∅)
  = ([], ∅).
Proof.
  apply (dense_page_is_skipped sample_network (fun html => html) string
           (fun n => n) PhoneSample.matcher "Acme" "https://acme.com"
           "https://acme.com/staff" PhoneSample.directory [] ([], ∅)).
  vm_compute. lia.
Defined.

(** ** The coordinators on sample runs *)

Example calendar_main_two_companies :
  calendar_main SampleRun.scan [SampleRun.beta; acme]
  = Ret ([ {| company_name := "Beta Stays"; website := "";
              calendar_confidence := 0; sr_evidence_url := None;
              sr_evidence_type := None;
              sr_evidence_detail := Some "no_website" |};
           {| company_name := "Acme Rentals"; website := "https://acme.com";
              calendar_confidence := 100;
              sr_evidence_url := Some "https://calendly.com/acme";
              sr_evidence_type := Some "external_scheduler";
              sr_evidence_detail :=
                Some "matched scheduler host pattern: calendly.com" |} ],
         [ {| company_name := "Acme Rentals"; website := "https://acme.com";
              calendar_confidence := 100;
              sr_evidence_url := Some "https://calendly.com/acme";
              sr_evidence_type := Some "external_scheduler";
              sr_evidence_detail :=
                Some "matched scheduler host pattern: calendly.com" |} ]).
Proof. vm_compute. reflexivity. Qed.

Lemma coordinators_propagate_exceptions_witness :
  (exists results rows,
      calendar_main SampleRun.scan [SampleRun.beta; acme] = Ret (results, rows)
      /\ length results = 2%nat)
  /\ raises (calendar_main SampleRun.scan_rejecting
               [SampleRun.beta; SampleRun.gamma; acme]) = true
  /\ raises (phone_main SampleRun.process_rejecting
               [SampleRun.beta; SampleRun.gamma; acme]) = true.
Proof.
  split; [|split].
  - destruct (coordinators_propagate_exceptions SampleRun.scan SampleRun.process
                [acme; SampleRun.beta] [SampleRun.beta; acme])
      as (Hall & _).
    + apply perm_swap.
    + destruct Hall as (results & rows & Hrun & _ & Hlen).
      * intros company [<-|[<-|[]]]; vm_compute; reflexivity.
      * exists results, rows. split; [exact Hrun | exact Hlen].
  - destruct (coordinators_propagate_exceptions SampleRun.scan_rejecting
                SampleRun.process_rejecting
                [acme; SampleRun.beta; SampleRun.gamma]
                [SampleRun.beta; SampleRun.gamma; acme])
      as (_ & _ & Hraise & _).
    + apply Permutation_cons_append.
    + apply (Hraise SampleRun.gamma).
      * right. right. left. reflexivity.
      * reflexivity.
  - destruct (coordinators_propagate_exceptions SampleRun.scan_rejecting
                SampleRun.process_rejecting
                [acme; SampleRun.beta; SampleRun.gamma]
                [SampleRun.beta; SampleRun.gamma; acme])
      as (_ & _ & _ & Hraise).
    + apply Permutation_cons_append.
    + apply (Hraise SampleRun.gamma).
      * right. right. left. reflexivity.
      * reflexivity.
Defined.

(** C2, as the specification states it, fails: with three companies and
    a scan that raises for the second to complete, both coordinators raise
    instead of completing three results. *)
Lemma coordinators_complete_all_counterexample :
  ~ coordinators_complete_all SampleRun.scan_rejecting SampleRun.process_rejecting
      [SampleRun.beta; SampleRun.gamma; acme]
  /\ calendar_main SampleRun.scan_rejecting [SampleRun.beta; SampleRun.gamma; acme]
     = Raise ValueError
  /\ phone_main SampleRun.process_rejecting [SampleRun.beta; SampleRun.gamma; acme]
     = Raise ValueError.
Proof.
  split; [|split].
  - intros [(results & rows & H & _) _]. vm_compute in H. discriminate H.
  - vm_compute. reflexivity.
  - vm_compute. reflexivity.
Qed.

(** * Further properties *)

(** ** Calendar mode: how the checks of a page combine *)

Lemma update_as_keep_best (best : Evidence) (sc : Z) (url typ detail : string) :
  update best sc url typ detail = keep_best best (evidence_of sc url typ detail).
Proof. reflexivity. Qed.

Lemma update_floor_as_keep_best (best : Evidence) (floor : Z)
    (url typ detail : string) :
  update best (Z.max (score best) floor) url typ detail
  = keep_best best (evidence_of floor url typ detail).
Proof.
  unfold update, keep_best, evidence_of. simpl.
  destruct (Z.max (score best) floor >? score best) eqn:E1;
    destruct (floor >? score best) eqn:E2; try lia; [|reflexivity].
  replace (Z.max (score best) floor) with floor by lia. reflexivity.
Qed.

(** A loop of checks at one level: only the first check that fires can
    change the running best. *)
Lemma fold_first_hit {B : Type} (hit : B -> bool) (signal : B -> Evidence)
    (level : Z) (step : Evidence -> B -> Evidence) (l : list B) (best : Evidence) :
  (forall b, score (signal b) = level) ->
  (forall a b, step a b = if hit b then keep_best a (signal b) else a) ->
  fold_left step l best
  = fold_left keep_best
      (match List.find hit l with Some b => [signal b] | None => [] end) best.
Proof.
  intros Hlevel Hstep. revert best.
  induction l as [|b l IH]; intros best; simpl; [reflexivity|].
  rewrite Hstep. destruct (hit b) eqn:Hb; [|apply IH].
  rewrite IH. simpl.
  destruct (List.find hit l) as [b'|]; simpl; [|reflexivity].
  unfold keep_best at 1.
  destruct (score (signal b') >? score (keep_best best (signal b))) eqn:E;
    [|reflexivity].
  exfalso. rewrite !Hlevel in E. unfold keep_best in E.
  destruct (score (signal b) >? score best) eqn:E'; rewrite ?Hlevel in *; lia.
Qed.

Section SignalFacts.

Variable urljoin : string -> string -> string.
Variable urlparse_path : string -> string.

Lemma host_fold_signal (full_url : string) (best : Evidence) :
  fold_left (host_step full_url (PyStr.lower full_url)) SCHEDULER_HOST_PATTERNS best
  = fold_left keep_best (host_signal full_url) best.
Proof.
  unfold host_signal, host_hit.
  apply (fold_first_hit
           (fun pattern => PyStr.contains pattern (PyStr.lower full_url))
           (fun pattern => evidence_of 100 full_url "external_scheduler"
                             ("matched scheduler host pattern: " ++ pattern))
           100); reflexivity.
Qed.

Lemma path_fold_signal (full_url : string) (best : Evidence) :
  fold_left (path_step full_url (PyStr.lower (urlparse_path full_url)))
    SCHEDULER_PATH_KEYWORDS best
  = fold_left keep_best (path_signal urlparse_path full_url) best.
Proof.
  unfold path_signal, path_hit.
  apply (fold_first_hit
           (fun kw => PyStr.contains kw (PyStr.lower (urlparse_path full_url)))
           (fun kw => evidence_of 60 full_url "internal_link"
                        ("matched path keyword: " ++ kw))
           60); [reflexivity|].
  intros a kw. unfold path_step. now rewrite update_floor_as_keep_best.
Qed.

Lemma anchor_step_signal (full_url : string) (tag : Tag) (best : Evidence) :
  anchor_step full_url tag best
  = fold_left keep_best (anchor_signal full_url tag) best.
Proof.
  unfold anchor_step, anchor_signal, anchor_hit, anchor_text_of.
  destruct (_ || _); [|reflexivity].
  now rewrite update_floor_as_keep_best.
Qed.

Lemma tag_step_signals (page_url : string) (best : Evidence) (tag : Tag) :
  tag_step urljoin urlparse_path page_url best tag
  = fold_left keep_best (tag_signals urljoin urlparse_path page_url tag) best.
Proof.
  unfold tag_step, tag_signals, linked_url.
  destruct (href_or_src tag) as [href|]; [|reflexivity].
  destruct (PyStr.truthy href); [|reflexivity]. cbn [negb].
  rewrite !fold_left_app, <- host_fold_signal, <- path_fold_signal.
  apply anchor_step_signal.
Qed.

Lemma tags_fold_signals (page_url : string) (tags : list Tag) (best : Evidence) :
  fold_left (tag_step urljoin urlparse_path page_url) tags best
  = fold_left keep_best
      (flat_map (tag_signals urljoin urlparse_path page_url) tags) best.
Proof.
  revert best. induction tags as [|tag tags IH]; intros best; simpl;
    [reflexivity|].
  now rewrite fold_left_app, IH, tag_step_signals.
Qed.

Lemma text_fold_signal (page_url full_text : string) (best : Evidence) :
  fold_left (text_step page_url (PyStr.lower full_text)) TEXT_PATTERNS best
  = fold_left keep_best (text_signal page_url full_text) best.
Proof.
  unfold text_signal, text_hit.
  apply (fold_first_hit
           (fun pattern => Re.found (snd pattern) (PyStr.lower full_text))
           (fun pattern => evidence_of 70 page_url "text"
                             ("matched text pattern: " ++ fst pattern))
           70); [reflexivity|].
  intros a pattern. unfold text_step. now rewrite update_floor_as_keep_best.
Qed.

Lemma analyze_soup_fold_signals (soup : Soup) (page_url : string) :
  analyze_soup urljoin urlparse_path soup page_url
  = fold_left keep_best (page_signals urljoin urlparse_path soup page_url)
      no_evidence.
Proof.
  unfold analyze_soup, page_signals.
  now rewrite fold_left_app, text_fold_signal, tags_fold_signals.
Qed.



End SignalFacts.









Section SignalBounds.

Variable urljoin : string -> string -> string.
Variable urlparse_path : string -> string.






End SignalBounds.

Section PageEvidence.

Variable urljoin : string -> string -> string.
Variable urlparse_path : string -> string.




End PageEvidence.












Lemma flat_map_filter_nil {A B : Type} (keep : A -> bool) (f : A -> list B)
    (l : list A) :
  (forall x, keep x = false -> f x = []) ->
  flat_map f (List.filter keep l) = flat_map f l.
Proof.
  intros H. induction l as [|x l IH]; simpl; [reflexivity|].
  destruct (keep x) eqn:E; simpl; rewrite IH; [reflexivity|].
  now rewrite (H x E).
Qed.

(** X7.  Tags without a link count for nothing: a tag whose [href] and
    [src] are both missing or empty is skipped with its anchor text, so a
    page analysed without these tags gives the same evidence. *)
Theorem unlinked_tags_are_ignored
    (urljoin : string -> string -> string) (urlparse_path : string -> string)
    (soup : Soup) (page_url : string) :
  analyze_soup urljoin urlparse_path
    {| soup_tags := List.filter has_link (soup_tags soup);
       soup_text := soup_text soup |} page_url
  = analyze_soup urljoin urlparse_path soup page_url.
Proof.
  rewrite !analyze_soup_fold_signals. unfold page_signals. simpl.
  rewrite flat_map_filter_nil; [reflexivity|].
  intros tag H. unfold tag_signals, linked_url. unfold has_link in H.
  destruct (href_or_src tag) as [href|]; [|reflexivity]. now rewrite H.
Qed.

(** ** The URL normaliser, again *)












(** ** Calendar mode: the result of a site, again *)

Lemma normalize_base_url_blank (raw : string) :
  PyStr.strip raw = "" -> normalize_base_url raw = "".
Proof. intros H. unfold normalize_base_url. now rewrite H. Qed.

Lemma scan_site_without_website_blank
    (session_get : string -> Headers -> Py Response)
    (urljoin : string -> string -> string) (urlparse_path : string -> string)
    (BeautifulSoup : string -> Soup) (company : Company) :
  PyStr.strip (dict_get company "website" "") = "" ->
  scan_site session_get urljoin urlparse_path BeautifulSoup company
  = Ret ({| company_name := dict_get company "company_name" "";
            website := ""; calendar_confidence := 0;
            sr_evidence_url := None; sr_evidence_type := None;
            sr_evidence_detail := Some "no_website" |}, []).
Proof.
  intros Hblank. unfold scan_site.
  now rewrite (normalize_base_url_blank _ Hblank).
Qed.

(** X10.  A company whose website is blank or missing is not scanned: no
    request is made, and the result is confidence 0 with no evidence URL
    or type and the detail [no_website]; the name defaults to the empty
    string when the row has none. *)
Theorem scan_site_without_website
    (session_get : string -> Headers -> Py Response)
    (urljoin : string -> string -> string) (urlparse_path : string -> string)
    (BeautifulSoup : string -> Soup) (company : Company) :
  company !! "website" = None
  \/ PyStr.strip (dict_get company "website" "") = "" ->
  scan_site session_get urljoin urlparse_path BeautifulSoup company
  = Ret ({| company_name := default "" (company !! "company_name");
            website := ""; calendar_confidence := 0;
            sr_evidence_url := None; sr_evidence_type := None;
            sr_evidence_detail := Some "no_website" |}, []).
Proof.
  intros H.
  assert (Hblank : PyStr.strip (dict_get company "website" "") = "").
  { destruct H as [H|H]; [|exact H]. unfold dict_get. now rewrite H. }
  rewrite scan_site_without_website_blank by assumption.
  unfold dict_get. destruct (company !! "company_name"); reflexivity.
Qed.

Lemma scan_site_without_website_witness :
  scan_site sample_network Sample.urljoin Sample.path_of Sample.parser
    {[ "company_name" := "Delta Cabins" ]}
  = Ret ({| company_name := "Delta Cabins"; website := "";
            calendar_confidence := 0; sr_evidence_url := None;
            sr_evidence_type := None;
            sr_evidence_detail := Some "no_website" |}, []).
Proof.
  rewrite scan_site_without_website by (left; vm_compute; reflexivity).
  vm_compute. reflexivity.
Defined.



Section SiteFacts.

Variable session_get : string -> Headers -> Py Response.
Variable urljoin : string -> string -> string.
Variable urlparse_path : string -> string.
Variable BeautifulSoup : string -> Soup.




End SiteFacts.







(** ** The calendar coordinator and its report *)

Lemma filter_bool {A : Type} (f : A -> bool) (l : list A) :
  filter (fun x => Is_true (f x)) l = List.filter f l.
Proof.
  induction l as [|x l IH]; [reflexivity|].
  rewrite filter_cons, IH. simpl.
  destruct (decide (Is_true (f x))) as [H|H]; destruct (f x); simpl in *;
    (reflexivity || contradiction || (exfalso; apply H; exact I)).
Qed.

Lemma await_results_returns (tasks : list (Py ScanResult))
    (results final : list ScanResult) :
  await_results tasks results = Ret final ->
  exists more, final = (results ++ more)%list /\ tasks = map Ret more.
Proof.
  revert results. induction tasks as [|task rest IH]; intros results; simpl.
  - intros [= <-]. exists []. now rewrite app_nil_r.
  - destruct task as [r|e]; simpl; [|discriminate].
    intros H. apply IH in H as (more & -> & ->).
    exists (r :: more). now rewrite <- app_assoc.
Qed.

Lemma calendar_main_returns (scan : Company -> Py ScanResult)
    (completion_order : list Company) (results rows : list ScanResult) :
  calendar_main scan completion_order = Ret (results, rows) ->
  map scan completion_order = map Ret results
  /\ rows = List.filter (fun r => calendar_confidence r >=? CONFIDENCE_THRESHOLD)
              results.
Proof.
  unfold calendar_main.
  destruct (await_results (map scan completion_order) []) as [final|e] eqn:E;
    simpl; [|discriminate].
  intros [= <- <-]. apply await_results_returns in E as (more & -> & ->).
  split; [reflexivity | apply filter_bool].
Qed.

(** The results a list of completed tasks holds. *)
Lemma returned_results {A : Type} (results : list A) :
  flat_map (fun task => match task with Ret r => [r] | Raise _ => [] end)
    (map Ret results) = results.
Proof. induction results as [|r rs IH]; simpl; [reflexivity | now rewrite IH]. Qed.

Lemma filter_Permutation_bool {A : Type} (f : A -> bool) (l1 l2 : list A) :
  Permutation l1 l2 -> Permutation (List.filter f l1) (List.filter f l2).
Proof.
  induction 1 as [|x l1 l2 _ IH|x y l|l1 l2 l3 _ IH1 _ IH2]; simpl.
  - constructor.
  - destruct (f x); [now constructor | assumption].
  - destruct (f x), (f y); try reflexivity. apply perm_swap.
  - now transitivity (List.filter f l2).
Qed.

(** X14.  The report does not depend on the order in which the scans
    complete, only the order of its rows does: for two completion orders
    of the same companies, if the coordinator returns for one it returns
    for the other, and the results and the rows written are the same up to
    their order. *)
Theorem calendar_main_order_independent (scan : Company -> Py ScanResult)
    (order1 order2 : list Company) (results1 rows1 : list ScanResult) :
  Permutation order1 order2 ->
  calendar_main scan order1 = Ret (results1, rows1) ->
  exists results2 rows2,
    calendar_main scan order2 = Ret (results2, rows2)
    /\ Permutation results1 results2
    /\ Permutation rows1 rows2.
Proof.
  intros Hperm Hrun.
  apply calendar_main_returns in Hrun as [Hmap ->].
  destruct (await_results_all (map scan order2) []) as (results2 & Hrun2 & Hmap2).
  { intros task Hin. apply in_map_iff in Hin as (c & <- & Hc).
    assert (Hin1 : In (scan c) (map Ret results1)).
    { rewrite <- Hmap. apply in_map.
      eapply Permutation_in; [symmetry; exact Hperm | exact Hc]. }
    apply in_map_iff in Hin1 as (r & <- & _). reflexivity. }
  assert (Hres : Permutation results1 results2).
  { rewrite <- (returned_results results1), <- (returned_results results2).
    rewrite <- Hmap, <- Hmap2.
    apply Permutation_flat_map, Permutation_map, Hperm. }
  exists results2, (List.filter (fun r => calendar_confidence r >=? CONFIDENCE_THRESHOLD)
                      results2).
  split; [|split].
  - unfold calendar_main. rewrite Hrun2. simpl. now rewrite filter_bool.
  - exact Hres.
  - now apply filter_Permutation_bool.
Qed.

Lemma calendar_main_order_independent_witness :
  exists results2 rows2,
    calendar_main SampleRun.scan [acme; SampleRun.beta] = Ret (results2, rows2)
    /\ length rows2 = 1%nat.
Proof.
  destruct (calendar_main_order_independent SampleRun.scan
              [SampleRun.beta; acme] [acme; SampleRun.beta] _ _
              (perm_swap _ _ _) calendar_main_two_companies)
    as (results2 & rows2 & Hrun & _ & Hrows).
  exists results2, rows2. split; [exact Hrun|].
  apply Permutation_length in Hrows. simpl in Hrows. congruence.
Defined.



(** ** Phone mode: what a lead is made of *)

(** The three locals after the category check and the name check, by
    cases. *)
Lemma name_check_cases (name : option string) (context : string) :
  let ops := any_in (keywords CATEGORIES.OPS_MAINTENANCE) context in
  let direct := any_in (keywords CATEGORIES.DIRECT_MOBILE) context in
  let owner := any_in (keywords CATEGORIES.GROWTH_OWNER) context in
  name_check name (category_check context)
  = if ops || direct || owner then
      (Some (if ops then "OPS_MAINTENANCE"
             else if direct then "DIRECT_MOBILE" else "GROWTH_OWNER"),
       Some (if ops then strategy CATEGORIES.OPS_MAINTENANCE
             else if direct then strategy CATEGORIES.DIRECT_MOBILE
             else strategy CATEGORIES.GROWTH_OWNER),
       if truthy_opt name then 100
       else if ops then 90 else if direct then 95 else 85)
    else if truthy_opt name then
      (Some "NAMED_CONTACT", Some (strategy CATEGORIES.NAMED_CONTACT), 80)
    else (None, None, 0).
Proof.
  intros ops direct owner. unfold category_check, name_check.
  fold ops direct owner.
  destruct ops, direct, owner, (truthy_opt name); reflexivity.
Qed.

Lemma truthy_opt_name (text_before : string) :
  truthy_opt (extract_name_before_number text_before)
  = match extract_name_before_number text_before with
    | Some _ => true
    | None => false
    end.
Proof.
  destruct (extract_name_before_number text_before) as [name|] eqn:E;
    [|reflexivity].
  simpl. now apply extract_name_nonempty in E.
Qed.

(** X16.  A number whose context holds a blacklisted word is dropped,
    whatever category keywords and name stand next to it. *)
Theorem blacklisted_number_is_dropped (formatted_number text_content : string)
    (match_start match_end : Z) (bad : string) :
  In bad BLACKLIST_CONTEXT ->
  PyStr.contains bad (full_context_of text_content match_start match_end) = true ->
  analyze_number formatted_number text_content match_start match_end = None.
Proof.
  intros Hin Hbad. unfold analyze_number.
  assert (H : any_in BLACKLIST_CONTEXT
                (full_context_of text_content match_start match_end) = true)
    by (apply existsb_exists; eauto).
  now rewrite H.
Qed.

Lemma blacklisted_number_is_dropped_witness :
  analyze_number "(555) 123-4567"
    "Greg Ku, Broker, direct line (555) 123-4567 for owner services" 29 43
  = None.
Proof.
  apply (blacklisted_number_is_dropped _ _ _ _ "broker").
  - right. right. left. reflexivity.
  - reflexivity.
Defined.

(** X17.  The admission rule: a number is dropped exactly when its
    context is blacklisted, or holds no category keyword while no name
    stands before it. *)
Theorem analyze_number_drops_iff (formatted_number text_content : string)
    (match_start match_end : Z) :
  let context := full_context_of text_content match_start match_end in
  analyze_number formatted_number text_content match_start match_end = None
  <-> any_in BLACKLIST_CONTEXT context = true
      \/ (any_in (keywords CATEGORIES.OPS_MAINTENANCE) context = false
          /\ any_in (keywords CATEGORIES.DIRECT_MOBILE) context = false
          /\ any_in (keywords CATEGORIES.GROWTH_OWNER) context = false
          /\ extract_name_before_number (text_before_of text_content match_start)
             = None).
Proof.
  intros context. unfold analyze_number. fold context.
  destruct (any_in BLACKLIST_CONTEXT context); [intuition|].
  rewrite name_check_cases, truthy_opt_name.
  destruct (any_in (keywords CATEGORIES.OPS_MAINTENANCE) context),
    (any_in (keywords CATEGORIES.DIRECT_MOBILE) context),
    (any_in (keywords CATEGORIES.GROWTH_OWNER) context),
    (extract_name_before_number (text_before_of text_content match_start));
    simpl; intuition discriminate.
Qed.

(** X18.  A name alone makes a lead: when the context is not blacklisted
    and holds no category keyword, a name before the number gives a lead
    of category [NAMED_CONTACT] with the strategy of that category, at
    confidence 80. *)
Theorem named_contact_lead (formatted_number text_content : string)
    (match_start match_end : Z) (name : string) :
  let context := full_context_of text_content match_start match_end in
  any_in BLACKLIST_CONTEXT context = false ->
  any_in (keywords CATEGORIES.OPS_MAINTENANCE) context = false ->
  any_in (keywords CATEGORIES.DIRECT_MOBILE) context = false ->
  any_in (keywords CATEGORIES.GROWTH_OWNER) context = false ->
  extract_name_before_number (text_before_of text_content match_start) = Some name ->
  exists lead,
    analyze_number formatted_number text_content match_start match_end = Some lead
    /\ category lead = Some "NAMED_CONTACT"
    /\ suggested_strategy lead = Some "Name Drop Call"
    /\ confidence_score lead = 80
    /\ contact_name lead = Some name.
Proof.
  intros context Hb Ho Hd Hg Hn. unfold analyze_number. fold context.
  rewrite Hb, name_check_cases, truthy_opt_name. fold context.
  rewrite Ho, Hd, Hg, Hn. simpl. eexists. split; [reflexivity|]. simpl. auto.
Qed.

Lemma named_contact_lead_witness :
  exists lead,
    analyze_number "(555) 222-3333"
      "ask for Greg Ku at (555) 222-3333 weekdays" 19 33 = Some lead
    /\ category lead = Some "NAMED_CONTACT"
    /\ confidence_score lead = 80.
Proof.
  destruct (named_contact_lead "(555) 222-3333"
              "ask for Greg Ku at (555) 222-3333 weekdays" 19 33 "Greg Ku")
    as (lead & Hrun & Hcat & _ & Hconf & _); try reflexivity.
  exists lead. auto.
Defined.

(** The lead [analyze_number] builds, field by field. *)
Lemma analyze_number_lead (formatted_number text_content : string)
    (match_start match_end : Z) (lead : SniperResult) :
  analyze_number formatted_number text_content match_start match_end = Some lead ->
  phone_number lead = formatted_number
  /\ sn_company_name lead = "" /\ sn_website lead = ""
  /\ contact_name lead
     = extract_name_before_number (text_before_of text_content match_start)
  /\ role_or_context lead
     = clean_text
         (PyStr.slice (text_before_of text_content match_start) (Some (-30)) None
          ++ " [NUM] "
          ++ PyStr.slice (text_after_of text_content match_end) None (Some 30))
  /\ sound_lead lead.
Proof.
  unfold analyze_number.
  set (context := full_context_of text_content match_start match_end).
  set (name := extract_name_before_number _).
  destruct (any_in BLACKLIST_CONTEXT context); [discriminate|].
  rewrite name_check_cases. unfold name. rewrite truthy_opt_name. fold name.
  fold context. unfold sound_lead, category_table.
  destruct (any_in (keywords CATEGORIES.OPS_MAINTENANCE) context),
    (any_in (keywords CATEGORIES.DIRECT_MOBILE) context),
    (any_in (keywords CATEGORIES.GROWTH_OWNER) context),
    name as [n|]; simpl; try discriminate; intros [= <-]; simpl;
    (repeat split; try reflexivity; try lia; try discriminate;
     try (intros; lia); try (intros [? ?]; congruence); try congruence;
     try (eexists _, _; split; [|split; reflexivity]; simpl; tauto)).
Qed.

(** X19.  A lead carries the formatted number it was made for, no company
    name and no website yet, and the name found before the number; its
    category is one of the four of [CATEGORIES] and its strategy is the
    strategy of that category; its confidence is between 80 and 100, is 80
    exactly for a named contact, and is 100 exactly when a name comes with
    a category keyword. *)
Theorem lead_fields (formatted_number text_content : string)
    (match_start match_end : Z) (lead : SniperResult) :
  analyze_number formatted_number text_content match_start match_end = Some lead ->
  phone_number lead = formatted_number
  /\ sn_company_name lead = "" /\ sn_website lead = ""
  /\ contact_name lead
     = extract_name_before_number (text_before_of text_content match_start)
  /\ sound_lead lead.
Proof.
  intros H. apply analyze_number_lead in H. tauto.
Qed.

Lemma lead_fields_witness :
  exists lead,
    analyze_number "(555) 222-3333"
      "ask for Greg Ku at (555) 222-3333 for owner services" 19 33 = Some lead
    /\ phone_number lead = "(555) 222-3333"
    /\ sound_lead lead.
Proof.
  eexists. split; [reflexivity|].
  destruct (lead_fields "(555) 222-3333"
              "ask for Greg Ku at (555) 222-3333 for owner services" 19 33 _ eq_refl)
    as (Hnum & _ & _ & _ & Hsound).
  split; [exact Hnum | exact Hsound].
Defined.

(** ** Phone mode: where a contact name comes from *)

Lemma startswith_take (n : nat) (s : string) :
  PyStr.startswith (PyStr.take n s) s = true.
Proof.
  revert s. induction n as [|n IH]; intros [|c s]; simpl; auto.
  now rewrite Ascii.eqb_refl, IH.
Qed.

Lemma startswith_of_take (needle : string) (n : nat) (s : string) :
  PyStr.startswith needle (PyStr.take n s) = true ->
  PyStr.startswith needle s = true.
Proof.
  revert n s. induction needle as [|a needle IH]; intros n s; [reflexivity|].
  destruct n as [|n], s as [|c s]; simpl; try discriminate.
  intros H. apply andb_true_iff in H as [-> H]. simpl. eauto.
Qed.

Lemma contains_take (needle : string) (n : nat) (s : string) :
  PyStr.contains needle (PyStr.take n s) = true ->
  PyStr.contains needle s = true.
Proof.
  revert n. induction s as [|c s IH]; intros n.
  - destruct n; exact (fun H => H).
  - destruct n as [|n].
    + simpl. intros H. rewrite orb_false_r in H.
      destruct needle; [reflexivity | discriminate].
    + cbn [PyStr.take PyStr.contains]. intros H.
      apply orb_true_iff in H as [H|H]; apply orb_true_iff.
      * left. exact (startswith_of_take needle (S n) (String c s) H).
      * right. eauto.
Qed.

Lemma contains_drop (needle : string) (n : nat) (s : string) :
  PyStr.contains needle (PyStr.drop n s) = true ->
  PyStr.contains needle s = true.
Proof.
  revert s. induction n as [|n IH]; intros s; [exact (fun H => H)|].
  destruct s as [|c s]; [exact (fun H => H)|].
  cbn [PyStr.drop]. intros H. cbn [PyStr.contains].
  apply orb_true_iff. right. auto.
Qed.

Lemma contains_slice (needle s : string) (lo hi : option Z) :
  PyStr.contains needle (PyStr.slice s lo hi) = true ->
  PyStr.contains needle s = true.
Proof.
  unfold PyStr.slice. intros H. apply contains_take in H.
  now apply contains_drop in H.
Qed.

Lemma startswith_contains (needle s : string) :
  PyStr.startswith needle s = true -> PyStr.contains needle s = true.
Proof. intros H. destruct s; simpl in *; now rewrite H. Qed.

Lemma match_here_prefix (r : Re.re) (s found : string) :
  Re.match_here r s = Some found -> PyStr.startswith found s = true.
Proof.
  unfold Re.match_here. destruct (Re.run r s _); [|discriminate].
  intros [= <-]. apply startswith_take.
Qed.

Lemma search_contains (r : Re.re) (s found : string) :
  Re.search r s = Some found -> PyStr.contains found s = true.
Proof.
  induction s as [|c s IH]; cbn [Re.search].
  - destruct (Re.match_here r "") as [m|] eqn:E; [|discriminate].
    intros [= <-]. apply startswith_contains. exact (match_here_prefix _ _ _ E).
  - destruct (Re.match_here r (String c s)) as [m|] eqn:E.
    + intros [= <-]. apply startswith_contains. exact (match_here_prefix _ _ _ E).
    + intros H. cbn [PyStr.contains]. apply orb_true_iff. right. auto.
Qed.

(** X20.  The contact name of a lead is read off the page: it is not
    empty, it occurs in the last 40 characters of the text before the
    number, and so in the text of the page. *)
Theorem contact_name_occurs_in_text (formatted_number text_content : string)
    (match_start match_end : Z) (lead : SniperResult) (name : string) :
  analyze_number formatted_number text_content match_start match_end = Some lead ->
  contact_name lead = Some name ->
  name <> ""
  /\ PyStr.contains name
       (PyStr.slice (text_before_of text_content match_start) (Some (-40)) None)
     = true
  /\ PyStr.contains name text_content = true.
Proof.
  intros Hrun Hname. apply analyze_number_lead in Hrun as (_ & _ & _ & Hc & _).
  rewrite Hname in Hc. symmetry in Hc.
  split; [apply truthy_true_iff; eauto using extract_name_nonempty|].
  rewrite extract_name_is_search in Hc. apply search_contains in Hc.
  split; [exact Hc|].
  apply contains_slice in Hc. unfold text_before_of in Hc.
  now apply contains_slice in Hc.
Qed.

Lemma contact_name_occurs_in_text_witness :
  PyStr.contains "Greg Ku" "ask for Greg Ku at (555) 222-3333 weekdays" = true.
Proof.
  eapply (contact_name_occurs_in_text "(555) 222-3333"
            "ask for Greg Ku at (555) 222-3333 weekdays" 19 33 _ "Greg Ku");
    reflexivity.
Defined.

(** ** Phone mode: cleaned text *)

Lemma append_empty_r (s : string) : s ++ "" = s.
Proof.
  induction s as [|c s IH]; [reflexivity|].
  change (String c s ++ "") with (String c (s ++ "")). now rewrite IH.
Qed.

Lemma rev_string_forallb (p : ascii -> bool) (acc s : string) :
  PyStr.forallb_str p (PyStr.rev_string acc s)
  = PyStr.forallb_str p acc && PyStr.forallb_str p s.
Proof.
  revert acc. induction s as [|c s IH]; intros acc; simpl.
  - now rewrite andb_true_r.
  - rewrite IH. simpl. destruct (p c), (PyStr.forallb_str p acc); reflexivity.
Qed.

Lemma rev_string_nonempty (acc s : string) :
  acc <> "" \/ s <> "" -> PyStr.rev_string acc s <> "".
Proof.
  revert acc. induction s as [|c s IH]; intros acc H; simpl.
  - destruct H; congruence.
  - apply IH. left. discriminate.
Qed.

Lemma rev_string_twice (a b s : string) :
  PyStr.rev_string a (PyStr.rev_string b s) = PyStr.rev_string (s ++ a) b.
Proof.
  revert b. induction s as [|c s IH]; intros b; [reflexivity|].
  change (String c s ++ a) with (String c (s ++ a)). simpl. now rewrite IH.
Qed.

Lemma split_ws_aux_words (cur s : string) :
  PyStr.forallb_str (fun c => negb (PyStr.isspace c)) cur = true ->
  Forall is_word (PyStr.split_ws_aux cur s).
Proof.
  assert (Hword : forall cur,
             cur <> "" ->
             PyStr.forallb_str (fun c => negb (PyStr.isspace c)) cur = true ->
             is_word (PyStr.rev_string "" cur)).
  { intros w Hne Hw. split; [apply rev_string_nonempty; auto|].
    now rewrite rev_string_forallb. }
  revert cur. induction s as [|c s IH]; intros cur Hcur; simpl.
  - destruct cur; [constructor|]. constructor; [|constructor].
    now apply Hword.
  - destruct (PyStr.isspace c) eqn:E.
    + destruct cur; [now apply IH|].
      constructor; [now apply Hword | now apply IH].
    + apply IH. simpl. now rewrite E.
Qed.

Lemma split_ws_aux_word (cur w rest : string) :
  PyStr.forallb_str (fun c => negb (PyStr.isspace c)) w = true ->
  PyStr.split_ws_aux cur (w ++ rest)
  = PyStr.split_ws_aux (PyStr.rev_string cur w) rest.
Proof.
  revert cur. induction w as [|c w IH]; intros cur Hw; [reflexivity|].
  change (String c w ++ rest) with (String c (w ++ rest)).
  simpl in *. apply andb_true_iff in Hw as [Hc Hw].
  apply negb_true_iff in Hc. rewrite Hc. now apply IH.
Qed.

Lemma split_ws_join (words : list string) :
  Forall is_word words -> PyStr.split_ws (PyStr.join " " words) = words.
Proof.
  induction 1 as [|w ws [Hne Hw] Hws IH]; [reflexivity|].
  assert (Hrev : PyStr.rev_string "" (PyStr.rev_string "" w) = w)
    by (rewrite rev_string_twice; apply append_empty_r).
  assert (Hcur : PyStr.rev_string "" w <> "")
    by (apply rev_string_nonempty; auto).
  unfold PyStr.split_ws in *. destruct ws as [|w2 ws].
  - simpl. rewrite <- (append_empty_r w) at 1.
    rewrite split_ws_aux_word by assumption. simpl.
    destruct (PyStr.rev_string "" w) eqn:E; [congruence|]. now rewrite Hrev.
  - change (PyStr.join " " (w :: w2 :: ws))
      with (w ++ String " " (PyStr.join " " (w2 :: ws))).
    rewrite split_ws_aux_word by assumption.
    cbn [PyStr.split_ws_aux]. change (PyStr.isspace " ") with true. cbn iota.
    destruct (PyStr.rev_string "" w) eqn:E; [congruence|].
    now rewrite Hrev, IH.
Qed.

(** X21.  [clean_text] keeps the words of a text and nothing else: its
    result has the same words, separated by single spaces, so cleaning
    twice is cleaning once; the words have no whitespace and are not
    empty. *)
Theorem clean_text_keeps_words (text : string) :
  Forall is_word (PyStr.split_ws text)
  /\ PyStr.split_ws (clean_text text) = PyStr.split_ws text
  /\ clean_text (clean_text text) = clean_text text.
Proof.
  assert (Hwords : Forall is_word (PyStr.split_ws text))
    by (now apply split_ws_aux_words).
  split; [exact Hwords|].
  unfold clean_text. rewrite split_ws_join by exact Hwords. auto.
Qed.

(** ** Phone mode: the leads of a company *)

Lemma match_step_invariant (PhoneNumber : Type)
    (format_national : PhoneNumber -> string)
    (company_name base_url text_content : string)
    (st : Leads) (m : PhoneNumberMatch PhoneNumber) :
  leads_invariant company_name base_url st ->
  leads_invariant company_name base_url
    (match_step PhoneNumber format_national company_name base_url text_content st m)
  /\ exists new,
      fst (match_step PhoneNumber format_national company_name base_url
             text_content st m) = (fst st ++ new)%list.
Proof.
  intros Hinv. destruct st as [found_leads seen_numbers].
  pose proof Hinv as (Hnd & Hseen & Hall).
  unfold match_step.
  destruct (analyze_number _ _ _ _) as [result|] eqn:Hrun;
    [|split; [exact Hinv | exists []; now rewrite app_nil_r]].
  destruct (decide (phone_number result ∈ seen_numbers)) as [Hin|Hout];
    [split; [exact Hinv | exists []; now rewrite app_nil_r]|].
  clear Hinv.
  apply analyze_number_lead in Hrun as (_ & _ & _ & _ & _ & Hsound).
  simpl in *. split; [|eauto]. repeat split; simpl.
  - rewrite map_app. simpl. apply NoDup_app. split; [exact Hnd|].
    split; [|apply NoDup_singleton].
    intros n Hn Hn'. apply list_elem_of_In in Hn.
    apply list_elem_of_singleton in Hn'. subst n.
    apply Hout, Hseen. exact Hn.
  - rewrite map_app, in_app_iff, elem_of_union, elem_of_singleton, Hseen.
    simpl. intuition.
  - rewrite map_app, in_app_iff, elem_of_union, elem_of_singleton, Hseen.
    simpl. intuition.
  - apply List.Forall_app. split; [exact Hall|].
    constructor; [|constructor]. simpl.
    split; [reflexivity|]. split; [reflexivity|]. exact Hsound.
Qed.

Lemma process_page_invariant (page_text : string -> string)
    (PhoneNumber : Type) (format_national : PhoneNumber -> string)
    (PhoneNumberMatcher : string -> list (PhoneNumberMatch PhoneNumber))
    (company_name base_url html : string) (st : Leads) :
  leads_invariant company_name base_url st ->
  leads_invariant company_name base_url
    (process_page page_text PhoneNumber format_national PhoneNumberMatcher
       company_name base_url html st)
  /\ exists new,
      fst (process_page page_text PhoneNumber format_national PhoneNumberMatcher
             company_name base_url html st) = (fst st ++ new)%list.
Proof.
  unfold process_page.
  destruct (Z.of_nat (length _) >? 15);
    [intros H; split; [exact H | exists []; now rewrite app_nil_r]|].
  generalize (PhoneNumberMatcher (page_text html)). intros matches. revert st.
  induction matches as [|m matches IH]; intros st Hinv; simpl.
  - split; [exact Hinv | exists []; now rewrite app_nil_r].
  - destruct (match_step_invariant PhoneNumber format_national company_name
                base_url (page_text html) st m Hinv)
      as (Hinv' & new1 & Hnew1).
    destruct (IH _ Hinv') as (Hinv'' & new2 & Hnew2).
    split; [exact Hinv''|]. exists (new1 ++ new2)%list.
    now rewrite Hnew2, Hnew1, app_assoc.
Qed.

Section CompanyLeads.

Variable session_get : string -> Headers -> Py Response.
Variable urljoin : string -> string -> string.
Variable urlparse_netloc : string -> string.
Variable page_text : string -> string.
Variable PhoneNumber : Type.
Variable format_national : PhoneNumber -> string.
Variable PhoneNumberMatcher : string -> list (PhoneNumberMatch PhoneNumber).

Lemma process_urls_invariant (company_name base_url : string)
    (urls : list string) (st : Leads) :
  leads_invariant company_name base_url st ->
  exists st',
    process_urls session_get page_text PhoneNumber format_national
      PhoneNumberMatcher company_name base_url urls st = Ret st'
    /\ leads_invariant company_name base_url st'.
Proof.
  revert st. induction urls as [|url urls IH]; intros st Hinv; simpl.
  - eauto.
  - rewrite fetch_html_result. simpl.
    destruct (negb (PyStr.truthy _)); [now apply IH|].
    apply IH. now apply process_page_invariant.
Qed.

Lemma process_company_invariant (company : Company) :
  exists leads,
    process_company session_get urljoin urlparse_netloc page_text PhoneNumber
      format_national PhoneNumberMatcher company = Ret leads
    /\ leads_invariant (dict_get company "company_name" "Unknown")
         (phone_base_url company) (leads, list_to_set (map phone_number leads))
    /\ (PyStr.strip (dict_get company "website" "") = "" -> leads = []).
Proof.
  unfold process_company, phone_base_url.
  destruct (PyStr.truthy (PyStr.strip (dict_get company "website" ""))) eqn:Ht;
    cbn [negb].
  - set (base_url := if negb _ then _ else _).
    match goal with
    | |- context [process_urls _ _ _ _ _ ?name ?base ?urls ?st] =>
        destruct (process_urls_invariant name base urls st)
          as ([leads seen] & Hrun & Hinv)
    end.
    { repeat split; simpl; try constructor; set_solver. }
    rewrite Hrun. simpl. exists leads. split; [reflexivity|].
    split.
    + destruct Hinv as (Hnd & Hseen & Hall). repeat split; simpl in *; auto.
      * intros Hn. apply elem_of_list_to_set, list_elem_of_In in Hn. exact Hn.
      * intros Hn. apply elem_of_list_to_set, list_elem_of_In. exact Hn.
    + apply truthy_true_iff in Ht. congruence.
  - exists []. split; [reflexivity|]. split; [|reflexivity].
    repeat split; simpl; try constructor; set_solver.
Qed.

End CompanyLeads.

Example phone_process_acme :
  exists first second,
    phone_process acme = Ret [first; second]
    /\ (phone_number first, contact_name first, sn_company_name first,
        sn_website first)
       = ("(555) 010-0001", Some "Ann Lee", "Acme Rentals", "https://acme.com")
    /\ (phone_number second, contact_name second, confidence_score second)
       = ("(555) 010-0002", Some "Bob Ray", 100).
Proof. eexists _, _. vm_compute. repeat split. Qed.


Lemma phone_base_url_http (company : Company) :
  PyStr.startswith "http" (phone_base_url company) = true.
Proof.
  unfold phone_base_url.
  destruct (PyStr.startswith "http" (PyStr.strip _)) eqn:E; [exact E|].
  reflexivity.
Qed.

(** X23.  Every lead of a company is stamped with the name of the
    company, [Unknown] when the row has none, and with the base URL that
    was scanned, which starts with [http]; and it is a sound lead: a
    category of the table with its strategy, at confidence 80 or more. *)
Theorem process_company_stamps_leads
    (session_get : string -> Headers -> Py Response)
    (urljoin : string -> string -> string) (urlparse_netloc : string -> string)
    (page_text : string -> string) (PhoneNumber : Type)
    (format_national : PhoneNumber -> string)
    (PhoneNumberMatcher : string -> list (PhoneNumberMatch PhoneNumber))
    (company : Company) (leads : list SniperResult) :
  process_company session_get urljoin urlparse_netloc page_text PhoneNumber
    format_national PhoneNumberMatcher company = Ret leads ->
  Forall (fun lead =>
            sn_company_name lead = default "Unknown" (company !! "company_name")
            /\ sn_website lead = phone_base_url company
            /\ PyStr.startswith "http" (sn_website lead) = true
            /\ sound_lead lead) leads.
Proof.
  intros Hrun.
  destruct (process_company_invariant session_get urljoin urlparse_netloc
              page_text PhoneNumber format_national PhoneNumberMatcher company)
    as (leads' & Hrun' & (_ & _ & Hall) & _).
  rewrite Hrun in Hrun'. injection Hrun' as <-.
  eapply List.Forall_impl; [|exact Hall].
  intros lead (Hname & Hweb & Hsound).
  split; [|split; [exact Hweb | split; [|exact Hsound]]].
  - unfold dict_get in Hname. now destruct (company !! "company_name").
  - rewrite Hweb. apply phone_base_url_http.
Qed.

Lemma process_company_stamps_leads_witness :
  exists leads,
    phone_process acme = Ret leads
    /\ Forall (fun lead => sn_company_name lead = "Acme Rentals"
                          /\ sound_lead lead) leads.
Proof.
  destruct phone_process_acme as (first & second & Hrun & _).
  exists [first; second]. split; [exact Hrun|].
  pose proof (process_company_stamps_leads _ _ _ _ _ _ _ _ _ Hrun) as H.
  eapply List.Forall_impl; [|exact H].
  intros lead (Hname & _ & _ & Hsound). split; [|exact Hsound].
  rewrite Hname. vm_compute. reflexivity.
Defined.

(** X24.  The first occurrence of a number wins: a match whose formatted
    number was seen before leaves the leads and the seen numbers as they
    are, and a page only adds leads after those already found. *)
Theorem first_occurrence_wins
    (page_text : string -> string) (PhoneNumber : Type)
    (format_national : PhoneNumber -> string)
    (PhoneNumberMatcher : string -> list (PhoneNumberMatch PhoneNumber))
    (company_name base_url text_content html : string)
    (st : Leads) (m : PhoneNumberMatch PhoneNumber) :
  (format_national (number PhoneNumber m) ∈ snd st ->
   match_step PhoneNumber format_national company_name base_url text_content st m
   = st)
  /\ (leads_invariant company_name base_url st ->
      exists new,
        fst (process_page page_text PhoneNumber format_national
               PhoneNumberMatcher company_name base_url html st)
        = (fst st ++ new)%list).
Proof.
  split.
  - intros Hseen. destruct st as [found_leads seen_numbers]. unfold match_step.
    destruct (analyze_number _ _ _ _) as [result|] eqn:Hrun; [|reflexivity].
    apply analyze_number_lead in Hrun as (Hnum & _).
    simpl in Hseen. rewrite Hnum.
    destruct (decide (format_national (number PhoneNumber m) ∈ seen_numbers));
      [reflexivity | contradiction].
  - intros Hinv.
    pose proof (process_page_invariant page_text PhoneNumber format_national
                  PhoneNumberMatcher company_name base_url html st Hinv) as [_ H].
    exact H.
Qed.

Lemma first_occurrence_wins_witness :
  match_step string (fun n => n) "Acme" "https://acme.com"
    "Ann Lee direct (555) 010-0001" ([], {[ "(555) 010-0001" ]})
    {| number := "(555) 010-0001"; start := 15; end_ := 29 |}
  = ([], {[ "(555) 010-0001" ]}).
Proof.
  apply (first_occurrence_wins (fun html => html) string (fun n => n)
           PhoneSample.matcher "Acme" "https://acme.com"
           "Ann Lee direct (555) 010-0001" ""
           ([], {[ "(555) 010-0001" ]})).
  simpl. set_solver.
Defined.

(** ** The phone coordinator and its report *)

Lemma append_to_report (acc results : list SniperResult) :
  match results with [] => report_of acc | _ => append_to_csv results (report_of acc) end
  = report_of (acc ++ results).
Proof.
  destruct results as [|r results]; [now rewrite app_nil_r|].
  destruct acc as [|a acc]; [reflexivity|].
  simpl. now rewrite map_app.
Qed.

Lemma await_appending_spec (process : Company -> Py (list SniperResult))
    (leads_of : Company -> list SniperResult) (order : list Company)
    (total_leads completed : Z) (acc : list SniperResult) :
  (forall company, In company order -> process company = Ret (leads_of company)) ->
  await_appending process order total_leads completed (report_of acc)
  = (Ret (total_leads + Z.of_nat (length (flat_map leads_of order)),
          completed + Z.of_nat (length order)),
     report_of (acc ++ flat_map leads_of order)).
Proof.
  revert total_leads completed acc.
  induction order as [|company rest IH]; intros total_leads completed acc Hall.
  - simpl. rewrite app_nil_r. do 3 f_equal; lia.
  - cbn [await_appending]. unfold worker_appending.
    rewrite (Hall company) by now left.
    rewrite append_to_report, IH by (intros c Hc; apply Hall; now right).
    simpl flat_map. rewrite length_app, app_assoc. simpl length.
    do 3 f_equal; lia.
Qed.

Lemma worker_returns (process : Company -> Py (list SniperResult))
    (company : Company) (leads : list SniperResult) :
  process company = Ret leads ->
  worker process company = Ret (Z.of_nat (length leads)).
Proof. intros H. unfold worker. now rewrite H. Qed.

Lemma await_counts_spec (process : Company -> Py (list SniperResult))
    (leads_of : Company -> list SniperResult) (order : list Company)
    (total_leads completed : Z) :
  (forall company, In company order -> process company = Ret (leads_of company)) ->
  await_counts (map (worker process) order) total_leads completed
  = Ret (total_leads + Z.of_nat (length (flat_map leads_of order)),
         completed + Z.of_nat (length order)).
Proof.
  revert total_leads completed.
  induction order as [|company rest IH]; intros total_leads completed Hall.
  - simpl. do 2 f_equal; lia.
  - cbn [map await_counts].
    rewrite (worker_returns process company (leads_of company))
      by (apply Hall; now left).
    simpl.
    rewrite IH by (intros c Hc; apply Hall; now right).
    rewrite length_app. do 2 f_equal; lia.
Qed.

(** X25.  When every scan returns, the phone coordinator counts every
    company and every lead, and the report holds the header once,
    followed by the leads of the companies in the order they completed; a
    run without leads leaves no report, and a report of an earlier run
    never survives. *)
Theorem phone_report_contents (process : Company -> Py (list SniperResult))
    (leads_of : Company -> list SniperResult) (completion_order : list Company)
    (old_file : SniperFile) :
  (forall company,
      In company completion_order -> process company = Ret (leads_of company)) ->
  let leads := flat_map leads_of completion_order in
  phone_main_appending process completion_order old_file
  = (Ret (Z.of_nat (length leads), Z.of_nat (length completion_order)),
     match leads with
     | [] => None
     | _ => Some (HeaderLine SNIPER_FIELDNAMES :: map RowLine leads)
     end)
  /\ phone_main process completion_order
     = Ret (Z.of_nat (length leads), Z.of_nat (length completion_order)).
Proof.
  intros Hall leads. split.
  - unfold phone_main_appending.
    change None with (report_of []) at 1.
    now rewrite (await_appending_spec process leads_of).
  - unfold phone_main. now rewrite (await_counts_spec process leads_of).
Qed.

Lemma phone_report_contents_witness :
  exists first second,
    phone_main_appending phone_process [SampleRun.beta; acme]
      (Some [HeaderLine SNIPER_FIELDNAMES])
    = (Ret (2, 2),
       Some [HeaderLine SNIPER_FIELDNAMES; RowLine first; RowLine second]).
Proof.
  destruct phone_process_acme as (first & second & Hrun & _).
  exists first, second.
  destruct (phone_report_contents phone_process
              (fun company => match phone_process company with
                              | Ret leads => leads
                              | Raise _ => []
                              end)
              [SampleRun.beta; acme] (Some [HeaderLine SNIPER_FIELDNAMES]))
    as [Hreport _].
  - intros company [<-|[<-|[]]]; [reflexivity | now rewrite Hrun].
  - rewrite Hreport. simpl. rewrite Hrun. reflexivity.
Defined.

Lemma await_counts_returns (futures : list (Py Z)) (total_leads completed : Z)
    (final : Z * Z) :
  await_counts futures total_leads completed = Ret final ->
  forall future, In future futures -> raises future = false.
Proof.
  intros Hrun future Hin. destruct (raises future) eqn:E; [|reflexivity].
  pose proof (await_counts_raises futures total_leads completed future Hin E) as H.
  rewrite Hrun in H. discriminate.
Qed.

(** X26.  The totals of the phone coordinator do not depend on the order
    in which the scans complete: if it returns for one completion order
    of the companies, it returns the same totals for any other. *)
Theorem phone_main_order_independent (process : Company -> Py (list SniperResult))
    (order1 order2 : list Company) (totals : Z * Z) :
  Permutation order1 order2 ->
  phone_main process order1 = Ret totals ->
  phone_main process order2 = Ret totals.
Proof.
  intros Hperm Hrun.
  set (leads_of := fun company => match process company with
                                  | Ret leads => leads
                                  | Raise _ => []
                                  end).
  assert (Hall : forall company,
             In company order1 -> process company = Ret (leads_of company)).
  { intros company Hin. unfold leads_of.
    pose proof (await_counts_returns _ _ _ _ Hrun (worker process company)
                  (in_map _ _ _ Hin)) as H.
    rewrite worker_raises in H. now destruct (process company). }
  unfold phone_main in *.
  rewrite (await_counts_spec process leads_of) in Hrun by exact Hall.
  rewrite (await_counts_spec process leads_of)
    by (intros c Hc; apply Hall; eapply Permutation_in; [symmetry|]; eassumption).
  rewrite <- Hrun.
  rewrite (Permutation_length Hperm),
    (Permutation_length (Permutation_flat_map leads_of Hperm)).
  reflexivity.
Qed.

Lemma phone_main_order_independent_witness :
  phone_main phone_process [acme; SampleRun.beta] = Ret (2, 2).
Proof.
  apply (phone_main_order_independent phone_process [SampleRun.beta; acme]).
  - apply perm_swap.
  - vm_compute. reflexivity.
Defined.
